(** * AgriProof claim registry: a shallow embedding of
      [smart_contracts/agriproof/contract.py] and its specification.

    The contract is an ARC4 application: one global-state slot ([admin])
    and a set of boxes addressed by byte-string keys.  Every ABI method is
    embedded as a computation in a small monad that reads the transaction
    context, threads the application state, collects the emitted events
    and may fail.  A failure carries the state reached at the point of
    failure, so that "no write precedes a failed check" is a statement
    about the code and not about the ledger's rollback.

    What is modelled of the platform: [UInt64] arithmetic that fails on
    overflow, [op.extract] that fails out of range, boxes with existence,
    creation, reading, writing and deletion.  ARC4 structs are kept
    abstract (a box holds the struct, not its bytes); the packed verifier
    list is handled byte by byte, as the contract does.  Resource limits of
    the ledger (box size, opcode budget, minimum balance) are not
    modelled. *)

From Stdlib Require Import NArith List Lia.
From Stdlib Require Import Strings.Byte Strings.String.
From stdpp Require Import base decidable countable gmap list strings.

(** ** Bytes *)

Abbreviation bytes := (list byte).

#[global] Instance byte_eq_dec : EqDecision byte := Byte.byte_eq_dec.
#[global] Instance byte_countable : Countable byte :=
  inj_countable Byte.to_N Byte.of_N Byte.of_to_N.

(** A Python bytes literal [b"..."]. *)
Definition bytes_of (s : string) : bytes := list_byte_of_string s.

(** [arc4.Address()]: the zero address, 32 zero bytes. *)
Definition zero_address : bytes := replicate 32 x00.

(** ** ARC4 structs *)

(** [class ClaimStatus]: the three status codes, stored as [arc4.UInt8]. *)
Module ClaimStatus.
Definition PENDING : N := 0.
Definition APPROVED : N := 1.
Definition REJECTED : N := 2.
End ClaimStatus.

Record Claim := {
  proof_hash : string;
  status : N;
  submission_timestamp : N;
  verifier_address : bytes;
  verification_timestamp : N
}.

Record Enrollment := {
  enrollment_timestamp : N;
  claim_deadline : N
}.

Record ClaimDetails := {
  cd_farmer_address : bytes;
  cd_proof_hash : string;
  cd_status : N;
  cd_submission_timestamp : N;
  cd_verifier_address : bytes;
  cd_verification_timestamp : N
}.

Record EnrollmentDetails := {
  ed_farmer_address : bytes;
  ed_enrollment_timestamp : N;
  ed_claim_deadline : N
}.

(** ** Errors and events *)

(** The thirteen error codes of the contract, followed by the failures of
    the virtual machine itself (arithmetic overflow, a box operation or a
    byte extraction out of range, reading what was never written). *)
Inductive Error :=
  | ERR_ALREADY_ENROLLED
  | ERR_INVALID_DEADLINE
  | ERR_NOT_ENROLLED
  | ERR_DEADLINE_PASSED
  | ERR_DUPLICATE_CLAIM
  | ERR_INVALID_PROOF_HASH
  | ERR_NOT_VERIFIER
  | ERR_CLAIM_NOT_FOUND
  | ERR_CLAIM_NOT_PENDING
  | ERR_NOT_ADMIN
  | ERR_VERIFIER_EXISTS
  | ERR_VERIFIER_NOT_FOUND
  | ERR_ENROLLMENT_NOT_FOUND
  | VM_OVERFLOW
  | VM_BOX_ABSENT
  | VM_BOX_SIZE
  | VM_EXTRACT_RANGE
  | VM_DECODE
  | VM_STATE_UNSET.

(** [arc4.emit(name, ...)]. *)
Inductive Event :=
  | FarmerEnrolled (sender : bytes) (claim_deadline : N)
  | ClaimSubmitted (sender : bytes) (proof_hash : string)
  | ClaimVerified (farmer_address : bytes) (new_status : N) (sender : bytes)
  | VerifierAdded (verifier_address : bytes)
  | VerifierRemoved (verifier_address : bytes).

(** ** Application state *)

(** The contents of a box.  The verifier list is handled by the contract
    as raw bytes; [Enrollment] and [Claim] values are written as
    [struct.bytes] and read back with [Struct.from_bytes], which the
    embedding keeps abstract: an encoded struct is the struct itself,
    tagged, together with the length of its ARC4 encoding. *)
Inductive Blob :=
  | Raw (bs : bytes)
  | EnrollmentBytes (e : Enrollment)
  | ClaimBytes (c : Claim).

(** Length of the encoding.  An [Enrollment] is two [uint64].  A [Claim]
    has a 51-byte head (2-byte offset of the string, [uint8], [uint64],
    32-byte address, [uint64]) and the string as tail (2-byte length and
    the characters). *)
Definition blob_length (v : Blob) : nat :=
  match v with
  | Raw bs => length bs
  | EnrollmentBytes _ => 16
  | ClaimBytes c => 53 + String.length (proof_hash c)
  end.

Record State := {
  admin : option bytes;          (* self.admin = GlobalState(Bytes) *)
  boxes : gmap bytes Blob        (* box storage of the application *)
}.

Definition set_admin (a : bytes) (s : State) : State :=
  {| admin := Some a; boxes := boxes s |}.

Definition set_boxes (f : gmap bytes Blob → gmap bytes Blob) (s : State) : State :=
  {| admin := admin s; boxes := f (boxes s) |}.

(** The state of an application that was allocated and not yet created. *)
Definition blank : State := {| admin := None; boxes := ∅ |}.

(** What a call observes of its transaction and of the ledger. *)
Record Ctx := {
  sender : bytes;                (* Txn.sender *)
  latest_timestamp : N           (* Global.latest_timestamp *)
}.

(** ** The host *)

(** The one point on which stores differ: [box_put] on an existing box
    with contents of another length.  The AVM refuses it; a plain
    key-value store (the persistent store of the specification) replaces
    the contents.  The development is parametric in the choice. *)
Class Host := { box_put_resizes : bool }.

Definition AVM : Host := {| box_put_resizes := false |}.
Definition KVStore : Host := {| box_put_resizes := true |}.

(** ** The monad *)

Inductive outcome (A : Type) :=
  | Ok (a : A) (s : State) (logs : list Event)
  | Err (e : Error) (s : State).
Arguments Ok {A} a s logs.
Arguments Err {A} e s.

Definition M (A : Type) : Type := Ctx → State → outcome A.

#[global] Instance M_ret : MRet M := λ A a _ s, Ok a s [].
#[global] Instance M_bind : MBind M := λ A B f m c s,
  match m c s with
  | Ok a s1 l1 =>
      match f a c s1 with
      | Ok r s2 l2 => Ok r s2 (l1 ++ l2)
      | Err e s2 => Err e s2
      end
  | Err e s1 => Err e s1
  end.

Definition fail {A} (e : Error) : M A := λ _ s, Err e s.

(** Python's [assert cond, msg]. *)
Definition assert (cond : bool) (msg : Error) : M unit :=
  if cond then mret () else fail msg.

Definition emit (ev : Event) : M unit := λ _ s, Ok () s [ev].

Definition Txn_sender : M bytes := λ c s, Ok (sender c) s [].
Definition Global_latest_timestamp : M N := λ c s, Ok (latest_timestamp c) s [].

(** [self.admin.value], read and written. *)
Definition admin_value : M bytes := λ _ s,
  match admin s with
  | Some a => Ok a s []
  | None => Err VM_STATE_UNSET s
  end.
Definition admin_assign (a : bytes) : M unit := λ _ s, Ok () (set_admin a s) [].

(** [UInt64] arithmetic: the AVM fails on overflow. *)
Definition UInt64_max : N := 2 ^ 64 - 1.
Definition uint64_add (x y : N) : M N :=
  if (x + y <=? UInt64_max)%N then mret (x + y)%N else fail VM_OVERFLOW.
Definition uint64_mul (x y : N) : M N :=
  if (x * y <=? UInt64_max)%N then mret (x * y)%N else fail VM_OVERFLOW.

(** [op.extract(a, start, length)]. *)
Definition op_extract (a : bytes) (start len : nat) : M bytes :=
  if bool_decide (start + len ≤ length a)
  then mret (take len (drop start a)) else fail VM_EXTRACT_RANGE.

(** *** Boxes: the methods of [BoxRef(key=...)]

    A [BoxRef] is represented by its key. *)

Section Boxes.
Context `{Host}.

Definition box_exists (key : bytes) : M bool := λ _ s,
  Ok (bool_decide (is_Some (boxes s !! key))) s [].

Definition box_get (key : bytes) : M Blob := λ _ s,
  match boxes s !! key with
  | Some v => Ok v s []
  | None => Err VM_BOX_ABSENT s
  end.

Definition box_create (key : bytes) (size : nat) : M bool := λ _ s,
  match boxes s !! key with
  | Some v =>
      if bool_decide (blob_length v = size) then Ok false s []
      else Err VM_BOX_SIZE s
  | None => Ok true (set_boxes <[key := Raw (replicate size x00)]> s) []
  end.

Definition box_put (key : bytes) (data : Blob) : M unit := λ _ s,
  match boxes s !! key with
  | Some v =>
      if box_put_resizes || bool_decide (blob_length v = blob_length data)
      then Ok () (set_boxes <[key := data]> s) []
      else Err VM_BOX_SIZE s
  | None => Ok () (set_boxes <[key := data]> s) []
  end.

Definition box_delete (key : bytes) : M bool := λ _ s,
  Ok (bool_decide (is_Some (boxes s !! key))) (set_boxes (delete key) s) [].
End Boxes.

(** [Struct.from_bytes] and [box.get()] read as raw bytes. *)
Definition Enrollment_from_bytes (v : Blob) : M Enrollment :=
  match v with EnrollmentBytes e => mret e | _ => fail VM_DECODE end.
Definition Claim_from_bytes (v : Blob) : M Claim :=
  match v with ClaimBytes c => mret c | _ => fail VM_DECODE end.
Definition raw_bytes (v : Blob) : M bytes :=
  match v with Raw bs => mret bs | _ => fail VM_DECODE end.

(** ** Values passed as addresses

    [Txn.sender] is an [Account].  The contract turns it into [Bytes]
    with [.bytes] wherever it compares or concatenates it, and into an
    [arc4.Address] where it stores it; only the first line of
    [verify_claim] hands the [Account] itself to [_is_verifier].  That
    subroutine declares its parameter [arc4.Address | Bytes]: it converts
    an [arc4.Address] to its bytes and passes any other value on, as it
    is, to [_verifier_in_list], which compares it with the [Bytes] chunks
    of the list. *)

(** What reaches a parameter declared [Bytes]. *)
Inductive Operand :=
  | OfBytes (b : bytes)
  | OfAccount (a : bytes).

(** What reaches the parameter [address : arc4.Address | Bytes]. *)
Inductive AddressArg :=
  | OfAddress (a : bytes)
  | NotAddress (v : Operand).

(** [x == y] for [x : Bytes]: equal contents when [y] is [Bytes] too; a
    value of another class is not equal to a [Bytes] value. *)
Definition Bytes_eq (x : bytes) (y : Operand) : bool :=
  match y with
  | OfBytes b => bool_decide (x = b)
  | OfAccount _ => false
  end.

(** ** The contract *)

Definition SECONDS_PER_DAY : N := 86400.

Section Contract.
Context `{Host}.

(** *** Subroutines on the packed verifier list *)

(** The body of [for i in range(num_verifiers)] in [_verifier_in_list],
    over the indices still to visit. *)
Fixpoint _verifier_in_list_loop (verifiers_bytes : bytes)
    (address_bytes : Operand) (range : list nat) : M bool :=
  match range with
  | [] => mret false
  | i :: range =>
      let start := i * 32 in
      chunk ← op_extract verifiers_bytes start 32;
      if Bytes_eq chunk address_bytes then mret true
      else _verifier_in_list_loop verifiers_bytes address_bytes range
  end.

Definition _verifier_in_list (verifiers_bytes : bytes)
    (address_bytes : Operand) : M bool :=
  let num_verifiers := length verifiers_bytes / 32 in
  _verifier_in_list_loop verifiers_bytes address_bytes (seq 0 num_verifiers).

(** The loop of [_remove_from_list]; [result] is the accumulator. *)
Fixpoint _remove_from_list_loop (verifiers_bytes address_bytes : bytes)
    (range : list nat) (result : bytes) : M bytes :=
  match range with
  | [] => mret result
  | i :: range =>
      let start := i * 32 in
      verifier ← op_extract verifiers_bytes start 32;
      let result :=
        if bool_decide (verifier ≠ address_bytes) then result ++ verifier
        else result in
      _remove_from_list_loop verifiers_bytes address_bytes range result
  end.

Definition _remove_from_list (verifiers_bytes address_bytes : bytes) : M bytes :=
  let result := [] in
  let num_verifiers := length verifiers_bytes / 32 in
  _remove_from_list_loop verifiers_bytes address_bytes (seq 0 num_verifiers) result.

Definition _is_verifier (address : AddressArg) : M bool :=
  let verifiers_box := bytes_of "verifiers" in
  ex ← box_exists verifiers_box;
  if negb ex then mret false
  else
    verifiers_bytes ← box_get verifiers_box ≫= raw_bytes;
    let address_bytes :=
      match address with
      | OfAddress a => OfBytes a       (* isinstance(address, arc4.Address) *)
      | NotAddress v => v
      end in
    _verifier_in_list verifiers_bytes address_bytes.

(** *** ABI methods *)

Definition create : M unit :=
  sender ← Txn_sender;
  admin_assign sender.

Definition enroll_farmer (deadline_days : N) : M unit :=
  assert (0 <? deadline_days)%N ERR_INVALID_DEADLINE;;
  sender ← Txn_sender;
  let enrollment_key := bytes_of "enrollment_" ++ sender in
  let enrollment_box := enrollment_key in
  ex ← box_exists enrollment_box;
  assert (negb ex) ERR_ALREADY_ENROLLED;;
  enrollment_timestamp ← Global_latest_timestamp;
  span ← uint64_mul deadline_days SECONDS_PER_DAY;
  claim_deadline ← uint64_add enrollment_timestamp span;
  let enrollment :=
    {| enrollment_timestamp := enrollment_timestamp;
       claim_deadline := claim_deadline |} in
  box_create enrollment_box (blob_length (EnrollmentBytes enrollment));;
  box_put enrollment_box (EnrollmentBytes enrollment);;
  emit (FarmerEnrolled sender claim_deadline).

Definition submit_claim (proof_hash : string) : M unit :=
  assert (bool_decide (proof_hash ≠ "")) ERR_INVALID_PROOF_HASH;;
  sender ← Txn_sender;
  let enrollment_key := bytes_of "enrollment_" ++ sender in
  let enrollment_box := enrollment_key in
  ex ← box_exists enrollment_box;
  assert ex ERR_NOT_ENROLLED;;
  enrollment ← box_get enrollment_box ≫= Enrollment_from_bytes;
  current_time ← Global_latest_timestamp;
  assert (current_time <? claim_deadline enrollment)%N ERR_DEADLINE_PASSED;;
  let claim_key := bytes_of "claim_" ++ sender in
  let claim_box := claim_key in
  ex ← box_exists claim_box;
  assert (negb ex) ERR_DUPLICATE_CLAIM;;
  let claim :=
    {| proof_hash := proof_hash;
       status := 0%N;
       submission_timestamp := current_time;
       verifier_address := zero_address;
       verification_timestamp := 0%N |} in
  box_create claim_box (blob_length (ClaimBytes claim));;
  box_put claim_box (ClaimBytes claim);;
  emit (ClaimSubmitted sender proof_hash).

Definition verify_claim (farmer_address : bytes) (approved : bool) : M unit :=
  sender ← Txn_sender;
  ok ← _is_verifier (NotAddress (OfAccount sender));
  assert ok ERR_NOT_VERIFIER;;
  let claim_key := bytes_of "claim_" ++ farmer_address in
  let claim_box := claim_key in
  ex ← box_exists claim_box;
  assert ex ERR_CLAIM_NOT_FOUND;;
  claim ← box_get claim_box ≫= Claim_from_bytes;
  assert (status claim =? 0)%N ERR_CLAIM_NOT_PENDING;;
  let new_status := (if approved then 1 else 2)%N in
  now ← Global_latest_timestamp;
  let updated_claim :=
    {| proof_hash := proof_hash claim;
       status := new_status;
       submission_timestamp := submission_timestamp claim;
       verifier_address := sender;
       verification_timestamp := now |} in
  box_put claim_box (ClaimBytes updated_claim);;
  emit (ClaimVerified farmer_address new_status sender).

Definition add_verifier (verifier_address : bytes) : M unit :=
  sender ← Txn_sender;
  adm ← admin_value;
  assert (bool_decide (sender = adm)) ERR_NOT_ADMIN;;
  let verifiers_box := bytes_of "verifiers" in
  ex ← box_exists verifiers_box;
  (if (ex : bool) return M unit then
     verifiers_bytes ← box_get verifiers_box ≫= raw_bytes;
     dup ← _verifier_in_list verifiers_bytes (OfBytes verifier_address);
     (if (dup : bool) return M unit then assert false ERR_VERIFIER_EXISTS else mret ());;
     let new_verifiers := verifiers_bytes ++ verifier_address in
     box_put verifiers_box (Raw new_verifiers)
   else
     box_create verifiers_box 32;;
     box_put verifiers_box (Raw verifier_address));;
  emit (VerifierAdded verifier_address).

Definition remove_verifier (verifier_address : bytes) : M unit :=
  sender ← Txn_sender;
  adm ← admin_value;
  assert (bool_decide (sender = adm)) ERR_NOT_ADMIN;;
  let verifiers_box := bytes_of "verifiers" in
  ex ← box_exists verifiers_box;
  assert ex ERR_VERIFIER_NOT_FOUND;;
  verifiers_bytes ← box_get verifiers_box ≫= raw_bytes;
  new_verifiers ← _remove_from_list verifiers_bytes verifier_address;
  assert (bool_decide (length new_verifiers < length verifiers_bytes))
    ERR_VERIFIER_NOT_FOUND;;
  (if bool_decide (length new_verifiers = 0) return M unit
   then box_delete verifiers_box;; mret ()
   else box_put verifiers_box (Raw new_verifiers));;
  emit (VerifierRemoved verifier_address).

(** *** Read-only methods *)

Definition get_claim (farmer_address : bytes) : M ClaimDetails :=
  let claim_key := bytes_of "claim_" ++ farmer_address in
  let claim_box := claim_key in
  ex ← box_exists claim_box;
  assert ex ERR_CLAIM_NOT_FOUND;;
  claim ← box_get claim_box ≫= Claim_from_bytes;
  mret {| cd_farmer_address := farmer_address;
          cd_proof_hash := proof_hash claim;
          cd_status := status claim;
          cd_submission_timestamp := submission_timestamp claim;
          cd_verifier_address := verifier_address claim;
          cd_verification_timestamp := verification_timestamp claim |}.

Definition get_enrollment (farmer_address : bytes) : M EnrollmentDetails :=
  let enrollment_key := bytes_of "enrollment_" ++ farmer_address in
  let enrollment_box := enrollment_key in
  ex ← box_exists enrollment_box;
  assert ex ERR_ENROLLMENT_NOT_FOUND;;
  enrollment ← box_get enrollment_box ≫= Enrollment_from_bytes;
  mret {| ed_farmer_address := farmer_address;
          ed_enrollment_timestamp := enrollment_timestamp enrollment;
          ed_claim_deadline := claim_deadline enrollment |}.

Definition is_verifier (address : bytes) : M bool :=
  _is_verifier (OfAddress address).

Definition get_admin : M bytes := admin_value.

(** *** Calls *)

(** The five state-changing operations of the method-call surface. *)
Inductive Call :=
  | Enroll_farmer (deadline_days : N)
  | Submit_claim (proof_hash : string)
  | Verify_claim (farmer_address : bytes) (approved : bool)
  | Add_verifier (verifier_address : bytes)
  | Remove_verifier (verifier_address : bytes).

Definition exec (call : Call) : M unit :=
  match call with
  | Enroll_farmer d => enroll_farmer d
  | Submit_claim ph => submit_claim ph
  | Verify_claim f a => verify_claim f a
  | Add_verifier v => add_verifier v
  | Remove_verifier v => remove_verifier v
  end.
End Contract.

(** ** Observations on states *)

Definition enrollment_key (a : bytes) : bytes := bytes_of "enrollment_" ++ a.
Definition claim_key (a : bytes) : bytes := bytes_of "claim_" ++ a.
Definition verifiers_key : bytes := bytes_of "verifiers".

(** The Enrollment record of identity [a], if its box holds one. *)
Definition enrollment_of (s : State) (a : bytes) : option Enrollment :=
  match boxes s !! enrollment_key a with
  | Some (EnrollmentBytes e) => Some e
  | _ => None
  end.

(** The Claim record of identity [a], if its box holds one. *)
Definition claim_of (s : State) (a : bytes) : option Claim :=
  match boxes s !! claim_key a with
  | Some (ClaimBytes c) => Some c
  | _ => None
  end.

(** A claim box exists for [a]: what [submit_claim] tests. *)
Definition has_claim (s : State) (a : bytes) : Prop :=
  is_Some (boxes s !! claim_key a).

(** A claim whose decision has been recorded. *)
Definition decided (c : Claim) : Prop := status c ≠ ClaimStatus.PENDING.

(** The first [n] 32-byte chunks of a byte string. *)
Fixpoint chunks32 (n : nat) (bs : bytes) : list bytes :=
  match n with
  | 0 => []
  | S n => take 32 bs :: chunks32 n (drop 32 bs)
  end.

(** The entries of a packed verifier list, as both subroutines cut it. *)
Definition entries (bs : bytes) : list bytes := chunks32 (length bs / 32) bs.

(** The verifier set of a state, in storage order. *)
Definition verifiers (s : State) : list bytes :=
  match boxes s !! verifiers_key with
  | Some (Raw bs) => entries bs
  | _ => []
  end.

(** Well-formedness of a stored verifier blob. *)
Definition wf_verifiers (bs : bytes) : Prop :=
  length bs ≠ 0 ∧ length bs mod 32 = 0 ∧ NoDup (entries bs).

(** ** Calls, sequences of calls, reachable states *)

(** ABI types of the arguments: [arc4.Address] is 32 bytes, [arc4.UInt64]
    fits 64 bits, an [arc4.String] has a 16-bit length. *)
Definition wf_call (call : Call) : Prop :=
  match call with
  | Enroll_farmer d => (d ≤ UInt64_max)%N
  | Submit_claim ph => (N.of_nat (String.length ph) < 65536)%N
  | Verify_claim f _ => length f = 32
  | Add_verifier v => length v = 32
  | Remove_verifier v => length v = 32
  end.

Definition wf_ctx (c : Ctx) : Prop :=
  length (sender c) = 32 ∧ (latest_timestamp c ≤ UInt64_max)%N.

Definition wf_step (x : Ctx * Call) : Prop := wf_ctx x.1 ∧ wf_call x.2.

Section Runs.
Context `{Host}.

(** A sequence of calls, each of which succeeds.  (A failed call is
    rolled back by the ledger and leaves no trace.) *)
Fixpoint run_all (t : list (Ctx * Call)) (s : State) : option State :=
  match t with
  | [] => Some s
  | (c, call) :: t =>
      match exec call c s with
      | Ok _ s' _ => run_all t s'
      | Err _ _ => None
      end
  end.

(** Creation of the application by the transaction [c]. *)
Definition deploy (c : Ctx) : option State :=
  match create c blank with
  | Ok _ s _ => Some s
  | Err _ _ => None
  end.

Definition reachable (s : State) : Prop :=
  ∃ c0 t, wf_ctx c0 ∧ Forall wf_step t ∧ deploy c0 ≫= run_all t = Some s.

End Runs.

(** [x] was added by the sequence and not removed afterwards. *)
Definition added_not_removed (x : bytes) (t : list (Ctx * Call)) : Prop :=
  ∃ t1 c t2, t = t1 ++ (c, Add_verifier x) :: t2 ∧
             ∀ c', (c', Remove_verifier x) ∉ t2.

Definition never_added (x : bytes) (t : list (Ctx * Call)) : Prop :=
  ∀ c, (c, Add_verifier x) ∉ t.

(** Invariant of the verifier box. *)
Definition verifiers_inv (s : State) : Prop :=
  match boxes s !! verifiers_key with
  | None => True
  | Some (Raw bs) => wf_verifiers bs
  | Some _ => False
  end.

(** Every claim box holds a claim in one of the three states, and its
    owner is enrolled. *)
Definition claims_inv (s : State) : Prop :=
  ∀ a, has_claim s a →
    ∃ cl en, claim_of s a = Some cl ∧ enrollment_of s a = Some en ∧
      (status cl = ClaimStatus.PENDING ∨ status cl = ClaimStatus.APPROVED ∨
       status cl = ClaimStatus.REJECTED).

Definition invariant (s : State) : Prop :=
  verifiers_inv s ∧ claims_inv s ∧ ∃ adm, admin s = Some adm ∧ length adm = 32.

(** ** Concrete identities, calls and states for the examples *)

Definition addr (x : byte) : bytes := replicate 32 x.
Definition admin0 : bytes := addr x01.
Definition farmerA : bytes := addr x0a.
Definition farmerB : bytes := addr x0b.
Definition verifierV : bytes := addr x0f.
Definition at_ (who : bytes) (now : N) : Ctx :=
  {| sender := who; latest_timestamp := now |}.

(** Scenarios 1 and 2 of the specification up to the verification, with
    t0 = 1000. *)
Definition scenario_enrolled : list (Ctx * Call) :=
  [(at_ farmerA 1000, Enroll_farmer 30)].
Definition scenario_pending : list (Ctx * Call) :=
  scenario_enrolled ++
  [(at_ farmerA 2000, Submit_claim "hash1");
   (at_ admin0 2500, Add_verifier verifierV)].

Definition genesis : State := {| admin := Some admin0; boxes := ∅ |}.

Definition enrollmentA : Enrollment :=
  {| enrollment_timestamp := 1000; claim_deadline := 2593000 |}.

Definition claimA (st : N) (v : bytes) (vt : N) : Claim :=
  {| proof_hash := "hash1"; status := st; submission_timestamp := 2000;
     verifier_address := v; verification_timestamp := vt |}.

Definition st_enrolled : State :=
  set_boxes <[enrollment_key farmerA := EnrollmentBytes enrollmentA]> genesis.

Definition st_submitted : State :=
  set_boxes
    <[claim_key farmerA := ClaimBytes (claimA ClaimStatus.PENDING zero_address 0)]>
    st_enrolled.

Definition st_pending : State :=
  set_boxes <[verifiers_key := Raw verifierV]> st_submitted.

(** The pending state after the admin has removed the only verifier. *)
Definition st_retired : State := set_boxes (delete verifiers_key) st_pending.

(** The state an outcome ends in. *)
Definition final_state {A} (o : outcome A) : State :=
  match o with
  | Ok _ s _ => s
  | Err _ s => s
  end.

(** A roster of three verifiers from which the middle one is removed; the
    second and third [add_verifier] need a store whose [box_put] resizes. *)
Definition verifierW : bytes := addr x10.
Definition verifierX : bytes := addr x11.
Definition scenario_three : list (Ctx * Call) :=
  [(at_ admin0 100, Add_verifier verifierV);
   (at_ admin0 200, Add_verifier verifierW);
   (at_ admin0 300, Add_verifier verifierX)].
Definition scenario_roster : list (Ctx * Call) :=
  scenario_three ++ [(at_ admin0 400, Remove_verifier verifierW)].
Definition st_one : State :=
  set_boxes <[verifiers_key := Raw verifierV]> genesis.
Definition st_two : State :=
  set_boxes <[verifiers_key := Raw (verifierV ++ verifierW)]> genesis.
Definition st_three : State :=
  set_boxes <[verifiers_key := Raw (verifierV ++ verifierW ++ verifierX)]> genesis.
Definition st_roster : State :=
  set_boxes <[verifiers_key := Raw (verifierV ++ verifierX)]> genesis.

(** The verifier set after one more successful call. *)
Definition step_verifiers (call : Call) (L : list bytes) : list bytes :=
  match call with
  | Add_verifier v => L ++ [v]
  | Remove_verifier v => filter (λ e, e ≠ v) L
  | _ => L
  end.

Definition never_removed (x : bytes) (t : list (Ctx * Call)) : Prop :=
  ∀ c, (c, Remove_verifier x) ∉ t.

(** ** Observations for the properties of the whole method surface *)

(** The events of an outcome; a failed call leaves none. *)
Definition events_of {A} (o : outcome A) : list Event :=
  match o with
  | Ok _ _ l => l
  | Err _ _ => []
  end.

(** The event that a call emits when it succeeds: the argument of the one
    [arc4.emit] of its method. *)
Definition event_of (call : Call) (c : Ctx) : Event :=
  match call with
  | Enroll_farmer d =>
      FarmerEnrolled (sender c) (latest_timestamp c + d * SECONDS_PER_DAY)
  | Submit_claim ph => ClaimSubmitted (sender c) ph
  | Verify_claim f approved =>
      ClaimVerified f
        (if approved then ClaimStatus.APPROVED else ClaimStatus.REJECTED)
        (sender c)
  | Add_verifier v => VerifierAdded v
  | Remove_verifier v => VerifierRemoved v
  end.

(** The error codes that the contract raises itself, as opposed to the
    failures of the virtual machine. *)
Definition contract_error (e : Error) : bool :=
  match e with
  | VM_OVERFLOW | VM_BOX_ABSENT | VM_BOX_SIZE | VM_EXTRACT_RANGE | VM_DECODE
  | VM_STATE_UNSET => false
  | _ => true
  end.

(** Every box belongs to one of the three families of keys, those of the
    first two being built on a 32-byte address, and holds the kind of data
    that its family is read as. *)
Definition boxes_typed (s : State) : Prop :=
  ∀ k b, boxes s !! k = Some b →
    (∃ a e, k = enrollment_key a ∧ length a = 32 ∧ b = EnrollmentBytes e) ∨
    (∃ a cl, k = claim_key a ∧ length a = 32 ∧ b = ClaimBytes cl) ∨
    (k = verifiers_key ∧ ∃ bs, b = Raw bs).

(** The details that [get_claim] and [get_enrollment] return for a record. *)
Definition claim_details (a : bytes) (cl : Claim) : ClaimDetails :=
  {| cd_farmer_address := a;
     cd_proof_hash := proof_hash cl;
     cd_status := status cl;
     cd_submission_timestamp := submission_timestamp cl;
     cd_verifier_address := verifier_address cl;
     cd_verification_timestamp := verification_timestamp cl |}.

Definition enrollment_details (a : bytes) (e : Enrollment) : EnrollmentDetails :=
  {| ed_farmer_address := a;
     ed_enrollment_timestamp := enrollment_timestamp e;
     ed_claim_deadline := claim_deadline e |}.

(** What the records of a state satisfy by the checks made when they were
    written. *)
Definition enrollment_ok (e : Enrollment) : Prop :=
  (enrollment_timestamp e + SECONDS_PER_DAY ≤ claim_deadline e)%N ∧
  (claim_deadline e ≤ UInt64_max)%N.

Definition claim_ok (cl : Claim) (en : Enrollment) : Prop :=
  proof_hash cl ≠ "" ∧
  (submission_timestamp cl < claim_deadline en)%N ∧
  (status cl = ClaimStatus.PENDING →
     verifier_address cl = zero_address ∧ verification_timestamp cl = 0%N) ∧
  (decided cl → length (verifier_address cl) = 32).

Definition records_inv (s : State) : Prop :=
  (∀ a e, enrollment_of s a = Some e → enrollment_ok e) ∧
  (∀ a cl, claim_of s a = Some cl →
     ∃ en, enrollment_of s a = Some en ∧ claim_ok cl en).

(** A method that writes nothing and emits nothing, whether it returns
    or fails. *)
Definition read_only {A} (m : M A) : Prop :=
  ∀ c s, final_state (m c s) = s ∧ events_of (m c s) = [].

(** The box that a call writes when it succeeds. *)
Definition written_key (call : Call) (c : Ctx) : bytes :=
  match call with
  | Enroll_farmer _ => enrollment_key (sender c)
  | Submit_claim _ => claim_key (sender c)
  | Verify_claim f _ => claim_key f
  | Add_verifier _ | Remove_verifier _ => verifiers_key
  end.

(** ** The deployment scripts

    [smart_contracts/agriproof/deploy_config.py] and the two pure
    functions of [smart_contracts/deploy.py].  A Python function returns a
    value or raises; the process environment is a finite map; the calls
    into [algosdk] and [algokit_utils] are parameters. *)

Inductive Exception :=
  | ValueError (msg : string).

Inductive result (A : Type) :=
  | Return (a : A)
  | Raise (e : Exception).
Arguments Return {A} a.
Arguments Raise {A} e.

(** Python's [s * n] on strings. *)
Fixpoint string_mul (s : string) (n : nat) : string :=
  match n with
  | 0 => ""
  | S n => s +:+ string_mul s n
  end.

(** [os.getenv(name, default)] and [os.getenv(name)]. *)
Definition os_getenv_default (environ : gmap string string) (name default : string)
    : string :=
  match environ !! name with
  | Some v => v
  | None => default
  end.
Definition os_getenv (environ : gmap string string) (name : string) : option string :=
  environ !! name.

Module DeployConfig.
Definition LOCALNET_ALGOD_URL : string := "http://localhost:4001".
Definition LOCALNET_ALGOD_TOKEN : string := string_mul "a" 64.
Definition TESTNET_ALGOD_URL : string := "https://testnet-api.algonode.cloud".
Definition TESTNET_ALGOD_TOKEN : string := "".
Definition CONTRACT_NAME : string := "AgriProofContract".

Definition get_network_config (network : string) : result (gmap string string) :=
  if bool_decide (network = "localnet") then
    Return {[ "algod_url" := LOCALNET_ALGOD_URL;
              "algod_token" := LOCALNET_ALGOD_TOKEN ]}
  else if bool_decide (network = "testnet") then
    Return {[ "algod_url" := TESTNET_ALGOD_URL;
              "algod_token" := TESTNET_ALGOD_TOKEN ]}
  else Raise (ValueError ("Unknown network: " +:+ network)).
End DeployConfig.

Module Deploy.
(** [algod.AlgodClient(algod_token, algod_address)]. *)
Record AlgodClient := {
  algod_token : string;
  algod_address : string
}.

Definition get_algod_client (environ : gmap string string) (network : string)
    : result AlgodClient :=
  if bool_decide (network = "localnet") then
    let algod_address := "http://localhost:4001" in
    let algod_token := string_mul "a" 64 in
    Return {| algod_token := algod_token; algod_address := algod_address |}
  else if bool_decide (network = "testnet") then
    let algod_address :=
      os_getenv_default environ "ALGOD_TESTNET_ADDRESS"
        "https://testnet-api.algonode.cloud" in
    let algod_token := os_getenv_default environ "ALGOD_TESTNET_TOKEN" "" in
    Return {| algod_token := algod_token; algod_address := algod_address |}
  else
    Raise (ValueError ("Unknown network: " +:+ network
                       +:+ ". Use 'localnet' or 'testnet'")).

Section Accounts.
(** [algokit_utils.get_localnet_default_account], returning the address
    and the private key of the account; [mnemonic.to_private_key];
    [account.address_from_private_key]. *)
Variable get_localnet_default_account : AlgodClient → result (string * string).
Variable to_private_key : string → result string.
Variable address_from_private_key : string → result string.

Definition get_deployer_account (environ : gmap string string) (network : string)
    : result (string * string) :=
  if bool_decide (network = "localnet") then
    match get_localnet_default_account
            {| algod_token := string_mul "a" 64;
               algod_address := "http://localhost:4001" |} with
    | Return account_info => Return (account_info.1, account_info.2)
    | Raise e => Raise e
    end
  else if bool_decide (network = "testnet") then
    let deployer_mnemonic := os_getenv environ "DEPLOYER_MNEMONIC" in
    match deployer_mnemonic with
    | None | Some "" =>
        Raise (ValueError
          ("DEPLOYER_MNEMONIC environment variable is required for TestNet deployment."
           +:+ String (Ascii.ascii_of_nat 10) ""
           +:+ "Set it to your 25-word mnemonic phrase."))
    | Some deployer_mnemonic =>
        match to_private_key deployer_mnemonic with
        | Return private_key =>
            match address_from_private_key private_key with
            | Return address => Return (address, private_key)
            | Raise e => Raise e
            end
        | Raise e => Raise e
        end
    end
  else Raise (ValueError ("Unknown network: " +:+ network)).
End Accounts.
End Deploy.

(** * Properties *)

(** ** Keys *)

Lemma enrollment_key_inj a a' : enrollment_key a = enrollment_key a' → a = a'.
Proof. unfold enrollment_key. apply app_inv_head. Qed.

Lemma claim_key_inj a a' : claim_key a = claim_key a' → a = a'.
Proof. unfold claim_key. apply app_inv_head. Qed.

Lemma claim_enrollment_key a a' : claim_key a ≠ enrollment_key a'.
Proof. discriminate. Qed.

Lemma claim_verifiers_key a : claim_key a ≠ verifiers_key.
Proof. discriminate. Qed.

Lemma enrollment_verifiers_key a : enrollment_key a ≠ verifiers_key.
Proof. discriminate. Qed.

(** ** The packed list *)

Lemma chunks32_concat (L : list bytes) (rest : bytes) :
  Forall (λ e, length e = 32) L → chunks32 (length L) (concat L ++ rest) = L.
Proof.
  induction 1 as [|e L He _ IH]; [done|].
  cbn [length chunks32 concat]. rewrite <- (assoc_L (++)).
  rewrite take_app_length', drop_app_length' by done. by rewrite IH.
Qed.

Lemma length_concat32 (L : list bytes) :
  Forall (λ e, length e = 32) L → length (concat L) = length L * 32.
Proof.
  induction 1 as [|e L He _ IH]; [done|].
  cbn [concat length]. rewrite length_app. lia.
Qed.

Lemma entries_concat (L : list bytes) :
  Forall (λ e, length e = 32) L → entries (concat L) = L.
Proof.
  intros HL. unfold entries. rewrite length_concat32 by done.
  rewrite Nat.div_mul by done.
  rewrite <- (app_nil_r (concat L)). by apply chunks32_concat.
Qed.

Lemma chunks32_length n (bs : bytes) :
  n * 32 ≤ length bs → Forall (λ e, length e = 32) (chunks32 n bs).
Proof.
  revert bs. induction n as [|n IH]; intros bs Hn; [constructor|].
  cbn [chunks32]. constructor.
  - rewrite length_take. lia.
  - apply IH. rewrite length_drop. lia.
Qed.

Lemma chunks32_take n (bs : bytes) :
  n * 32 ≤ length bs → concat (chunks32 n bs) = take (n * 32) bs.
Proof.
  revert bs. induction n as [|n IH]; intros bs Hn; [done|].
  cbn [chunks32 concat]. rewrite IH by (rewrite length_drop; lia).
  replace (S n * 32) with (32 + n * 32) by lia.
  by rewrite take_take_drop.
Qed.

Lemma entries_length32 (bs : bytes) : Forall (λ e, length e = 32) (entries bs).
Proof.
  apply chunks32_length. rewrite Nat.mul_comm. apply Nat.Div0.mul_div_le.
Qed.

Lemma concat_entries (bs : bytes) : length bs mod 32 = 0 → concat (entries bs) = bs.
Proof.
  intros Hm. unfold entries.
  assert (length bs / 32 * 32 = length bs) as Hl.
  { pose proof (Nat.div_mod (length bs) 32). lia. }
  rewrite chunks32_take by lia. rewrite Hl. apply firstn_all.
Qed.


Lemma entries_single (v : bytes) : length v = 32 → entries v = [v].
Proof.
  intros Hv. rewrite <- (app_nil_r v) at 1.
  change (v ++ []) with (concat [v]) . apply entries_concat. by repeat constructor.
Qed.

Lemma entries_snoc (bs v : bytes) :
  length bs mod 32 = 0 → length v = 32 → entries (bs ++ v) = entries bs ++ [v].
Proof.
  intros Hm Hv. rewrite <- (concat_entries bs) at 1 by done.
  replace (concat (entries bs) ++ v) with (concat (entries bs ++ [v])).
  - apply entries_concat. apply Forall_app. split; [apply entries_length32|].
    by repeat constructor.
  - rewrite concat_app. cbn. by rewrite app_nil_r.
Qed.


(** ** Symbolic evaluation of the subroutines and methods *)

#[local] Arguments bytes_of : simpl never.
#[local] Arguments replicate : simpl never.

Ltac unfold_M :=
  unfold assert, emit, Txn_sender, Global_latest_timestamp, admin_value,
    admin_assign, uint64_add, uint64_mul, op_extract, box_exists, box_get,
    box_create, box_put, box_delete, Enrollment_from_bytes, Claim_from_bytes,
    raw_bytes;
  unfold fail, mbind, M_bind, mret, M_ret; cbv zeta.

Lemma bool_decide_is_Some_Some {A} (x : A) : bool_decide (is_Some (Some x)) = true.
Proof. by apply bool_decide_eq_true. Qed.

Lemma bool_decide_is_Some_None {A} : bool_decide (is_Some (@None A)) = false.
Proof. apply bool_decide_eq_false. by intros [? ?]. Qed.

Lemma bool_decide_refl `{EqDecision A} (x : A) : bool_decide (x = x) = true.
Proof. by apply bool_decide_eq_true. Qed.

Ltac simp_M :=
  repeat (cbn beta iota;
          unfold set_boxes;
          cbn [negb app blob_length boxes admin proof_hash];
          rewrite ?lookup_insert_eq, ?length_replicate, ?bool_decide_refl,
            ?bool_decide_is_Some_Some, ?bool_decide_is_Some_None,
            ?orb_true_r, ?app_nil_r, ?insert_insert_eq;
          try match goal with
              | Hb : boxes _ !! _ = _ |- _ => rewrite Hb
              end).


Section Eval.
Context `{Host}.

Lemma _verifier_in_list_loop_eq vb ab n k c s :
  (k + n) * 32 ≤ length vb →
  _verifier_in_list_loop vb (OfBytes ab) (seq k n) c s =
  Ok (bool_decide (ab ∈ chunks32 n (drop (k * 32) vb))) s [].
Proof.
  revert k. induction n as [|n IH]; intros k Hk.
  - cbn. by rewrite bool_decide_false by apply not_elem_of_nil.
  - cbn [seq _verifier_in_list_loop chunks32]. unfold_M.
    rewrite bool_decide_true by lia.
    rewrite drop_drop. replace (k * 32 + 32) with (S k * 32) by lia.
    cbn beta iota. unfold Bytes_eq. case_bool_decide as Heq.
    + subst ab. rewrite bool_decide_true; [done|]. apply elem_of_cons; by left.
    + rewrite IH by lia. f_equal. apply bool_decide_ext.
      rewrite elem_of_cons. split; [by right|]. by intros [->|?].
Qed.

Lemma _verifier_in_list_eq vb ab c s :
  _verifier_in_list vb (OfBytes ab) c s =
  Ok (bool_decide (ab ∈ entries vb)) s [].
Proof.
  unfold _verifier_in_list. rewrite _verifier_in_list_loop_eq.
  - done.
  - rewrite Nat.mul_comm. apply Nat.Div0.mul_div_le.
Qed.

(** Against an [Account] every comparison fails, and the scan runs to its
    end. *)
Lemma _verifier_in_list_loop_Account vb a n k c s :
  (k + n) * 32 ≤ length vb →
  _verifier_in_list_loop vb (OfAccount a) (seq k n) c s = Ok false s [].
Proof.
  revert k. induction n as [|n IH]; intros k Hk; [done|].
  cbn [seq _verifier_in_list_loop]. unfold_M.
  rewrite bool_decide_true by lia. cbn beta iota. cbn [Bytes_eq].
  by rewrite IH by lia.
Qed.

Lemma _verifier_in_list_Account vb a c s :
  _verifier_in_list vb (OfAccount a) c s = Ok false s [].
Proof.
  unfold _verifier_in_list. apply _verifier_in_list_loop_Account.
  rewrite Nat.mul_comm. apply Nat.Div0.mul_div_le.
Qed.

Lemma _remove_from_list_loop_eq vb ab n k acc c s :
  (k + n) * 32 ≤ length vb →
  _remove_from_list_loop vb ab (seq k n) acc c s =
  Ok (acc ++ concat (filter (λ e, e ≠ ab) (chunks32 n (drop (k * 32) vb)))) s [].
Proof.
  revert k acc. induction n as [|n IH]; intros k acc Hk.
  - cbn. by rewrite app_nil_r.
  - cbn [seq _remove_from_list_loop chunks32]. unfold_M.
    rewrite bool_decide_true by lia.
    rewrite filter_cons, drop_drop.
    replace (k * 32 + 32) with (S k * 32) by lia.
    cbn beta iota. rewrite IH by lia. f_equal.
    case_bool_decide as Heq.
    + rewrite decide_True by done. cbn [concat]. by rewrite (assoc_L (++)).
    + by rewrite decide_False by (by intros []).
Qed.

Lemma _remove_from_list_eq vb ab c s :
  _remove_from_list vb ab c s =
  Ok (concat (filter (λ e, e ≠ ab) (entries vb))) s [].
Proof.
  unfold _remove_from_list. rewrite _remove_from_list_loop_eq.
  - done.
  - rewrite Nat.mul_comm. apply Nat.Div0.mul_div_le.
Qed.

Lemma _is_verifier_eq a c s :
  _is_verifier (OfAddress a) c s =
  match boxes s !! verifiers_key with
  | None => Ok false s []
  | Some (Raw bs) => Ok (bool_decide (a ∈ entries bs)) s []
  | Some _ => Err VM_DECODE s
  end.
Proof.
  unfold _is_verifier, verifiers_key. unfold_M.
  destruct (boxes s !! bytes_of "verifiers") as [[bs|e|cl]|] eqn:Hb;
    simp_M; try done.
  by rewrite _verifier_in_list_eq.
Qed.

(** Asked about an [Account], [_is_verifier] answers no, whatever the
    list holds. *)
Lemma _is_verifier_Account a c s :
  _is_verifier (NotAddress (OfAccount a)) c s =
  match boxes s !! verifiers_key with
  | None | Some (Raw _) => Ok false s []
  | Some _ => Err VM_DECODE s
  end.
Proof.
  unfold _is_verifier, verifiers_key. unfold_M.
  destruct (boxes s !! bytes_of "verifiers") as [[bs|e|cl]|] eqn:Hb;
    simp_M; try done.
  by rewrite _verifier_in_list_Account.
Qed.


Lemma enroll_farmer_eq d c s :
  enroll_farmer d c s =
  if negb (0 <? d)%N then Err ERR_INVALID_DEADLINE s
  else if bool_decide (is_Some (boxes s !! enrollment_key (sender c)))
  then Err ERR_ALREADY_ENROLLED s
  else if negb (d * SECONDS_PER_DAY <=? UInt64_max)%N then Err VM_OVERFLOW s
  else if negb (latest_timestamp c + d * SECONDS_PER_DAY <=? UInt64_max)%N
  then Err VM_OVERFLOW s
  else
    let e := {| enrollment_timestamp := latest_timestamp c;
                claim_deadline := latest_timestamp c + d * SECONDS_PER_DAY |} in
    Ok () (set_boxes <[enrollment_key (sender c) := EnrollmentBytes e]> s)
       [FarmerEnrolled (sender c) (claim_deadline e)].
Proof.
  unfold enroll_farmer, enrollment_key. unfold_M.
  destruct (0 <? d)%N; simp_M; [|done].
  destruct (boxes s !! (bytes_of "enrollment_" ++ sender c)) eqn:Hb;
    simp_M; [done|].
  destruct (d * SECONDS_PER_DAY <=? UInt64_max)%N; simp_M; [|done].
  destruct (_ + _ <=? UInt64_max)%N; simp_M; [|done].
  done.
Qed.

Lemma submit_claim_eq ph c s :
  submit_claim ph c s =
  if negb (bool_decide (ph ≠ "")) then Err ERR_INVALID_PROOF_HASH s
  else match boxes s !! enrollment_key (sender c) with
  | None => Err ERR_NOT_ENROLLED s
  | Some (EnrollmentBytes e) =>
      if negb (latest_timestamp c <? claim_deadline e)%N
      then Err ERR_DEADLINE_PASSED s
      else if bool_decide (is_Some (boxes s !! claim_key (sender c)))
      then Err ERR_DUPLICATE_CLAIM s
      else
        let claim := {| proof_hash := ph;
                        status := ClaimStatus.PENDING;
                        submission_timestamp := latest_timestamp c;
                        verifier_address := zero_address;
                        verification_timestamp := 0 |} in
        Ok () (set_boxes <[claim_key (sender c) := ClaimBytes claim]> s)
           [ClaimSubmitted (sender c) ph]
  | Some _ => Err VM_DECODE s
  end.
Proof.
  unfold submit_claim, enrollment_key, claim_key. unfold_M.
  destruct (bool_decide (ph ≠ "")); simp_M; [|done].
  destruct (boxes s !! (bytes_of "enrollment_" ++ sender c)) as [[bs|e|cl]|] eqn:Hb;
    simp_M; try done.
  destruct (_ <? _)%N; simp_M; [|done].
  destruct (boxes s !! (bytes_of "claim_" ++ sender c)) eqn:Hc; simp_M; [done|].
  done.
Qed.

(** [verify_claim] asks [_is_verifier] about the [Account] of the sender:
    the answer is no, and the method stops at its first assertion. *)
Lemma verify_claim_eq f approved c s :
  verify_claim f approved c s =
  match boxes s !! verifiers_key with
  | None | Some (Raw _) => Err ERR_NOT_VERIFIER s
  | Some _ => Err VM_DECODE s
  end.
Proof.
  unfold verify_claim. unfold_M. rewrite _is_verifier_Account.
  by destruct (boxes s !! verifiers_key) as [[bs|e|cl]|].
Qed.

Lemma add_verifier_eq v c s :
  add_verifier v c s =
  match admin s with
  | None => Err VM_STATE_UNSET s
  | Some adm =>
      if negb (bool_decide (sender c = adm)) then Err ERR_NOT_ADMIN s
      else match boxes s !! verifiers_key with
      | None =>
          if box_put_resizes || bool_decide (32 = length v)
          then Ok () (set_boxes <[verifiers_key := Raw v]> s) [VerifierAdded v]
          else Err VM_BOX_SIZE
                 (set_boxes <[verifiers_key := Raw (replicate 32 x00)]> s)
      | Some (Raw bs) =>
          if bool_decide (v ∈ entries bs) then Err ERR_VERIFIER_EXISTS s
          else if box_put_resizes || bool_decide (length bs = length (bs ++ v))
          then Ok () (set_boxes <[verifiers_key := Raw (bs ++ v)]> s)
                 [VerifierAdded v]
          else Err VM_BOX_SIZE s
      | Some _ => Err VM_DECODE s
      end
  end.
Proof.
  unfold add_verifier, verifiers_key. unfold_M.
  destruct (admin s) as [adm|]; simp_M; [|done].
  destruct (bool_decide (sender c = adm)); simp_M; [|done].
  destruct (boxes s !! bytes_of "verifiers") as [[bs|e|cl]|] eqn:Hb;
    simp_M; try done.
  - rewrite _verifier_in_list_eq.
    destruct (bool_decide (v ∈ entries bs)); simp_M; [done|].
    by destruct (box_put_resizes || _).
  - by destruct (box_put_resizes || _).
Qed.

Lemma remove_verifier_eq v c s :
  remove_verifier v c s =
  match admin s with
  | None => Err VM_STATE_UNSET s
  | Some adm =>
      if negb (bool_decide (sender c = adm)) then Err ERR_NOT_ADMIN s
      else match boxes s !! verifiers_key with
      | None => Err ERR_VERIFIER_NOT_FOUND s
      | Some (Raw bs) =>
          let new_verifiers := concat (filter (λ e, e ≠ v) (entries bs)) in
          if negb (bool_decide (length new_verifiers < length bs))
          then Err ERR_VERIFIER_NOT_FOUND s
          else if bool_decide (length new_verifiers = 0)
          then Ok () (set_boxes (delete verifiers_key) s) [VerifierRemoved v]
          else if box_put_resizes
                  || bool_decide (length bs = length new_verifiers)
          then Ok () (set_boxes <[verifiers_key := Raw new_verifiers]> s)
                 [VerifierRemoved v]
          else Err VM_BOX_SIZE s
      | Some _ => Err VM_DECODE s
      end
  end.
Proof.
  unfold remove_verifier, verifiers_key. unfold_M.
  destruct (admin s) as [adm|]; simp_M; [|done].
  destruct (bool_decide (sender c = adm)); simp_M; [|done].
  destruct (boxes s !! bytes_of "verifiers") as [[bs|e|cl]|] eqn:Hb;
    simp_M; try done.
  rewrite _remove_from_list_eq. simp_M.
  destruct (bool_decide (_ < _)); simp_M; [|done].
  destruct (bool_decide (_ = 0)); simp_M; [done|].
  by destruct (box_put_resizes || _).
Qed.
End Eval.

(** ** What a successful call has checked and written *)

Ltac to_Prop :=
  repeat match goal with
    | E : negb _ = false |- _ => apply negb_false_iff in E
    | E : negb _ = true |- _ => apply negb_true_iff in E
    | E : bool_decide _ = true |- _ => apply bool_decide_eq_true in E
    | E : bool_decide _ = false |- _ => apply bool_decide_eq_false in E
    | E : (_ <? _)%N = true |- _ => apply N.ltb_lt in E
    | E : (_ <? _)%N = false |- _ => apply N.ltb_ge in E
    | E : (_ <=? _)%N = true |- _ => apply N.leb_le in E
    | E : (_ <=? _)%N = false |- _ => apply N.leb_gt in E
    | E : (_ =? _)%N = true |- _ => apply N.eqb_eq in E
    | E : (_ =? _)%N = false |- _ => apply N.eqb_neq in E
    end.

Ltac split_run H :=
  cbv zeta in H;
  repeat match type of H with
    | context [match ?x with _ => _ end] => destruct x eqn:?; try discriminate H
    | context [if ?x then _ else _] => destruct x eqn:?; try discriminate H
    end;
  simplify_eq; to_Prop; simplify_eq.

Section Inversion.
Context `{Host}.

Lemma _is_verifier_verifiers a c s :
  verifiers_inv s →
  _is_verifier (OfAddress a) c s = Ok (bool_decide (a ∈ verifiers s)) s [].
Proof.
  unfold verifiers_inv, verifiers. rewrite _is_verifier_eq.
  by destruct (boxes s !! verifiers_key) as [[bs|e|cl]|].
Qed.

Lemma enroll_farmer_Ok d c s s' l :
  enroll_farmer d c s = Ok () s' l →
  (0 < d)%N ∧ boxes s !! enrollment_key (sender c) = None ∧
  (latest_timestamp c + d * SECONDS_PER_DAY ≤ UInt64_max)%N ∧
  s' = set_boxes <[enrollment_key (sender c) := EnrollmentBytes
         {| enrollment_timestamp := latest_timestamp c;
            claim_deadline := latest_timestamp c + d * SECONDS_PER_DAY |}]> s.
Proof.
  rewrite enroll_farmer_eq. intros Hr. split_run Hr.
  split_and!; try done. by apply eq_None_not_Some.
Qed.

Lemma submit_claim_Ok ph c s s' l :
  submit_claim ph c s = Ok () s' l →
  ph ≠ "" ∧
  (∃ e, boxes s !! enrollment_key (sender c) = Some (EnrollmentBytes e) ∧
        (latest_timestamp c < claim_deadline e)%N) ∧
  boxes s !! claim_key (sender c) = None ∧
  s' = set_boxes <[claim_key (sender c) := ClaimBytes
         {| proof_hash := ph;
            status := ClaimStatus.PENDING;
            submission_timestamp := latest_timestamp c;
            verifier_address := zero_address;
            verification_timestamp := 0 |}]> s.
Proof.
  rewrite submit_claim_eq. intros Hr. split_run Hr.
  split_and!; try done; [eauto|]. by apply eq_None_not_Some.
Qed.

Lemma verify_claim_Ok f approved c s s' l :
  verify_claim f approved c s = Ok () s' l → False.
Proof.
  rewrite verify_claim_eq. by destruct (boxes s !! verifiers_key) as [[| |]|].
Qed.

Lemma add_verifier_Ok v c s s' l :
  add_verifier v c s = Ok () s' l →
  admin s = Some (sender c) ∧ (v ∉ verifiers s) ∧
  ∃ bs, ((boxes s !! verifiers_key = None ∧ bs = []) ∨
         boxes s !! verifiers_key = Some (Raw bs)) ∧
    s' = set_boxes (<[verifiers_key := Raw (bs ++ v)]>) s.
Proof.
  rewrite add_verifier_eq. unfold verifiers. intros Hr. split_run Hr.
  - split_and!; [done..|]. eexists. split; [by right|done].
  - split_and!; [done|apply not_elem_of_nil|]. exists []. split; [by left|done].
Qed.

Lemma remove_verifier_Ok v c s s' l :
  remove_verifier v c s = Ok () s' l →
  admin s = Some (sender c) ∧
  ∃ bs, boxes s !! verifiers_key = Some (Raw bs) ∧
    let new_verifiers := concat (filter (λ e, e ≠ v) (entries bs)) in
    length new_verifiers < length bs ∧
    s' = set_boxes
           (if bool_decide (length new_verifiers = 0) then delete verifiers_key
            else <[verifiers_key := Raw new_verifiers]>) s.
Proof.
  rewrite remove_verifier_eq. intros Hr. split_run Hr.
  - split; [done|]. eexists. split; [done|]. cbv zeta.
    rewrite bool_decide_true by done. done.
  - split; [done|]. eexists. split; [done|]. cbv zeta.
    rewrite bool_decide_false by done. done.
Qed.
End Inversion.

(** ** Frame properties of a successful call *)

Ltac key_ne :=
  first
    [ apply claim_enrollment_key
    | apply not_eq_sym, claim_enrollment_key
    | apply claim_verifiers_key
    | apply not_eq_sym, claim_verifiers_key
    | apply enrollment_verifiers_key
    | apply not_eq_sym, enrollment_verifiers_key
    | intros ?%claim_key_inj; congruence
    | intros ?%enrollment_key_inj; congruence ].

Ltac other_key :=
  cbn [boxes admin set_boxes];
  rewrite ?lookup_insert_ne, ?lookup_delete_ne by key_ne.

(** Inverts a successful [exec]: one case per method that can succeed,
    with what the method checked and the state it wrote. *)
Ltac invert_exec Hr :=
  match type of Hr with
  | exec ?call _ _ = Ok _ _ _ =>
      destruct call as [days|hash|target flag|who|who]; cbn [exec] in Hr;
      [ apply enroll_farmer_Ok in Hr as (Hpos & Hfresh & Hfit & ->)
      | apply submit_claim_Ok in Hr as (Hph & (en & Hen & Hdl) & Hfresh & ->)
      | by apply verify_claim_Ok in Hr
      | apply add_verifier_Ok in Hr as (Hadm & Hnew & bs & Hbox & ->)
      | apply remove_verifier_Ok in Hr as (Hadm & bs & Hbox & Hlt & ->) ]
  end.

Section Frame.
Context `{Host}.

Lemma exec_admin call c s s' l :
  exec call c s = Ok () s' l → admin s' = admin s.
Proof. intros Hr. by invert_exec Hr. Qed.

Lemma exec_enrollment_of call c s s' l a e :
  exec call c s = Ok () s' l →
  enrollment_of s a = Some e → enrollment_of s' a = Some e.
Proof.
  intros Hr. unfold enrollment_of. invert_exec Hr; try case_bool_decide;
    other_key; try done.
  destruct (decide (a = sender c)) as [->|]; [|by other_key].
  by rewrite Hfresh.
Qed.


(** No successful call rewrites a claim that exists. *)
Lemma exec_claim_of call c s s' l a cl :
  exec call c s = Ok () s' l →
  claim_of s a = Some cl → claim_of s' a = Some cl.
Proof.
  intros Hr. unfold claim_of. invert_exec Hr; try case_bool_decide;
    other_key; try done.
  destruct (decide (a = sender c)) as [->|]; [|by other_key].
  by rewrite Hfresh.
Qed.


Lemma run_all_app t1 t2 s :
  run_all (t1 ++ t2) s = run_all t1 s ≫= run_all t2.
Proof.
  revert s. induction t1 as [|[c call] t1 IH]; intros s; [done|].
  cbn [run_all app]. by destruct (exec call c s).
Qed.

(** Induction over a successful sequence of calls. *)
Lemma run_all_ind (P : State → Prop) t s s' :
  run_all t s = Some s' → P s →
  (∀ call c s1 s2 l, exec call c s1 = Ok () s2 l → P s1 → P s2) → P s'.
Proof.
  intros Hr Hs Hstep. revert s Hr Hs.
  induction t as [|[c call] t IH]; intros s Hr Hs; cbn in Hr.
  - by simplify_eq.
  - destruct (exec call c s) as [[] s1 l1|] eqn:He; [|done]. eauto.
Qed.
End Frame.

(** ** Filtering the packed list *)

Lemma Forall_filter_keep {A} (P Q : A → Prop) `{∀ x, Decision (Q x)} (l : list A) :
  Forall P l → Forall P (filter Q l).
Proof.
  rewrite !Forall_forall. intros Hl x [_ Hx]%list_elem_of_filter. auto.
Qed.

Lemma filter_all {A} (P : A → Prop) `{∀ x, Decision (P x)} (l : list A) :
  (∀ x, x ∈ l → P x) → filter P l = l.
Proof.
  induction l as [|x l IH]; intros Hl; [done|].
  rewrite filter_cons_True by (apply Hl, elem_of_cons; by left).
  rewrite IH; [done|]. intros y Hy. apply Hl, elem_of_cons. by right.
Qed.

Lemma filter_ne_absent (v : bytes) (L : list bytes) :
  v ∉ L → filter (λ e, e ≠ v) L = L.
Proof. intros Hv. apply filter_all. intros x Hx ->. done. Qed.

Lemma filter_ne_NoDup (v : bytes) (L1 L2 : list bytes) :
  NoDup (L1 ++ v :: L2) → filter (λ e, e ≠ v) (L1 ++ v :: L2) = L1 ++ L2.
Proof.
  intros (_ & Hd & (Hv2 & _)%NoDup_cons)%NoDup_app.
  rewrite filter_app, filter_cons_False by (by intros []).
  rewrite !filter_ne_absent; [done..|].
  intros Hv1. apply (Hd v Hv1), elem_of_cons. by left.
Qed.

Lemma wf_verifiers_single (v : bytes) : length v = 32 → wf_verifiers v.
Proof.
  intros Hv. unfold wf_verifiers. rewrite entries_single, Hv by done.
  split_and!; [done..|]. apply NoDup_singleton.
Qed.

Lemma wf_verifiers_snoc (bs v : bytes) :
  wf_verifiers bs → length v = 32 → v ∉ entries bs → wf_verifiers (bs ++ v).
Proof.
  intros (Hn & Hm & Hd) Hv Hnew. unfold wf_verifiers.
  rewrite entries_snoc, length_app, Hv by done. split_and!.
  - lia.
  - rewrite <- Nat.Div0.add_mod_idemp_l, Hm. done.
  - apply NoDup_app. split_and!; [done| |apply NoDup_singleton].
    intros x Hx ->%list_elem_of_singleton. done.
Qed.

Lemma wf_verifiers_filter (bs v : bytes) :
  wf_verifiers bs →
  length (concat (filter (λ e, e ≠ v) (entries bs))) ≠ 0 →
  wf_verifiers (concat (filter (λ e, e ≠ v) (entries bs))).
Proof.
  intros (Hn & Hm & Hd) Hnew. unfold wf_verifiers.
  assert (Forall (λ e : bytes, length e = 32) (filter (λ e, e ≠ v) (entries bs)))
    as H32 by apply Forall_filter_keep, entries_length32.
  rewrite entries_concat, length_concat32 by done. split_and!.
  - by rewrite <- length_concat32.
  - apply Nat.Div0.mod_mul.
  - by apply NoDup_filter.
Qed.

Lemma removal_shrinks (bs v : bytes) :
  length bs mod 32 = 0 →
  length (concat (filter (λ e, e ≠ v) (entries bs))) < length bs →
  v ∈ entries bs.
Proof.
  intros Hm Hlt. destruct (decide (v ∈ entries bs)) as [|Hv]; [done|].
  rewrite filter_ne_absent, concat_entries in Hlt by done. lia.
Qed.

(** ** The invariant of reachable states *)

Section Invariant.
Context `{Host}.

Lemma exec_verifiers_inv call c s s' l :
  wf_call call → exec call c s = Ok () s' l →
  verifiers_inv s → verifiers_inv s'.
Proof.
  intros Hwf Hr. unfold verifiers_inv.
  invert_exec Hr; other_key; try done.
  - destruct Hbox as [[Hbox ->]|Hbox];
      rewrite Hbox, lookup_insert_eq; intros Hinv.
    + by apply wf_verifiers_single.
    + apply wf_verifiers_snoc; try done.
      revert Hnew. unfold verifiers. by rewrite Hbox.
  - rewrite Hbox. intros Hinv. case_bool_decide as Hz; cbn [boxes set_boxes].
    + by rewrite lookup_delete_eq.
    + rewrite lookup_insert_eq. by apply wf_verifiers_filter.
Qed.

Lemma exec_claims_inv call c s s' l :
  exec call c s = Ok () s' l → claims_inv s → claims_inv s'.
Proof.
  intros Hr Hinv a. unfold claims_inv, has_claim, claim_of, enrollment_of in *.
  specialize (Hinv a). revert Hinv.
  invert_exec Hr; try case_bool_decide; other_key; try done.
  - (* enroll_farmer *)
    destruct (decide (a = sender c)) as [->|]; [|by other_key].
    rewrite lookup_insert_eq. intros Hinv Hc.
    destruct (Hinv Hc) as (cl & en & ? & ? & ?). by eexists cl, _.
  - (* submit_claim *)
    destruct (decide (a = sender c)) as [->|]; [|by other_key].
    rewrite lookup_insert_eq. other_key. intros _ _.
    rewrite Hen.
    eexists _, _. split_and!; [done..|]. by left.
Qed.

Lemma exec_invariant call c s s' l :
  wf_call call → exec call c s = Ok () s' l → invariant s → invariant s'.
Proof.
  intros Hwf Hr (Hv & Hc & Ha). split_and!.
  - by eapply exec_verifiers_inv.
  - by eapply exec_claims_inv.
  - by rewrite (exec_admin _ _ _ _ _ Hr).
Qed.

Lemma run_all_invariant t s s' :
  Forall wf_step t → run_all t s = Some s' → invariant s → invariant s'.
Proof.
  intros Hwf. revert s. induction Hwf as [|[c call] t [_ Hcall] _ IH];
    intros s Hr Hs; cbn in Hr.
  - by simplify_eq.
  - destruct (exec call c s) as [[] s1 l1|] eqn:He; [|done].
    eapply IH; [done|]. by eapply exec_invariant.
Qed.

Lemma deploy_eq c : deploy c = Some {| admin := Some (sender c); boxes := ∅ |}.
Proof. done. Qed.

Lemma deploy_invariant c s : wf_ctx c → deploy c = Some s → invariant s.
Proof.
  intros [Hc _]. rewrite deploy_eq. intros [= <-]. split_and!.
  - done.
  - intros a [b Hb]. cbn in Hb. by rewrite lookup_empty in Hb.
  - eauto.
Qed.

Lemma reachable_invariant s : reachable s → invariant s.
Proof.
  intros (c0 & t & Hc0 & Ht & Hr).
  destruct (deploy c0) as [s0|] eqn:Hd; [|done]. cbn in Hr.
  eapply run_all_invariant; [done..|]. by eapply deploy_invariant.
Qed.

End Invariant.

(** ** The scenarios, evaluated *)

(** Evaluation on concrete states.  A method is replaced by its closed
    form and each read of the state (a box lookup, the admin) by its
    value, computed by [vm_compute]; what is left is settled by
    conversion.  The states themselves are never normalised: the normal
    form of a [gmap] with byte-string keys is large. *)
Ltac eval_reads :=
  repeat match goal with
    | |- context [boxes ?s !! ?k] =>
        let v := eval vm_compute in (boxes s !! k) in
        replace (boxes s !! k) with v by (vm_compute; reflexivity)
    | |- context [admin ?s] =>
        let v := eval vm_compute in (admin s) in
        progress replace (admin s) with v by (vm_compute; reflexivity)
    end.

Ltac by_eval :=
  cbn [exec];
  rewrite ?enroll_farmer_eq, ?submit_claim_eq, ?verify_claim_eq,
    ?add_verifier_eq, ?remove_verifier_eq;
  unfold is_verifier, claim_of, enrollment_of, has_claim, verifiers;
  rewrite ?_is_verifier_eq, ?_is_verifier_Account;
  eval_reads;
  repeat match goal with
    | |- context [_ || bool_decide ?P] =>
        let v := eval vm_compute in (bool_decide P) in
        replace (bool_decide P) with v by (vm_compute; reflexivity)
    end;
  rewrite ?orb_true_r, ?orb_false_r;
  first [ reflexivity
        | eexists; reflexivity
        | intros [? Hnone]; discriminate Hnone
        | vm_compute; intros Hgt; discriminate Hgt ].

Ltac wf_scenario :=
  repeat first [apply Forall_nil_2 | apply Forall_cons_2 | split];
  first [reflexivity | vm_compute; intros Hgt; discriminate Hgt].

Section Scenarios.
Context `{Host}.

Lemma step_enroll :
  exec (Enroll_farmer 30) (at_ farmerA 1000) genesis
    = Ok () st_enrolled [FarmerEnrolled farmerA 2593000].
Proof. by_eval. Qed.

Lemma step_submit :
  exec (Submit_claim "hash1") (at_ farmerA 2000) st_enrolled
    = Ok () st_submitted [ClaimSubmitted farmerA "hash1"].
Proof. by_eval. Qed.

Lemma step_roster :
  exec (Add_verifier verifierV) (at_ admin0 2500) st_submitted
    = Ok () st_pending [VerifierAdded verifierV].
Proof. by_eval. Qed.

Lemma step_retire :
  exec (Remove_verifier verifierV) (at_ admin0 3500) st_pending
    = Ok () st_retired [VerifierRemoved verifierV].
Proof. by_eval. Qed.

Lemma run_scenario_enrolled :
  deploy (at_ admin0 0) ≫= run_all scenario_enrolled = Some st_enrolled.
Proof.
  change (run_all scenario_enrolled genesis = Some st_enrolled).
  unfold scenario_enrolled. cbn [run_all]. by rewrite step_enroll.
Qed.

Lemma run_scenario_pending :
  deploy (at_ admin0 0) ≫= run_all scenario_pending = Some st_pending.
Proof.
  change (run_all scenario_pending genesis = Some st_pending).
  unfold scenario_pending. rewrite run_all_app.
  change (run_all scenario_enrolled genesis) with
    (deploy (at_ admin0 0) ≫= run_all scenario_enrolled).
  rewrite run_scenario_enrolled. cbn [mbind option_bind run_all].
  by rewrite step_submit, step_roster.
Qed.

Lemma reachable_enrolled : reachable st_enrolled.
Proof.
  exists (at_ admin0 0), scenario_enrolled.
  split_and!; [wf_scenario..|apply run_scenario_enrolled].
Qed.

Lemma reachable_pending : reachable st_pending.
Proof.
  exists (at_ admin0 0), scenario_pending.
  split_and!; [wf_scenario..|apply run_scenario_pending].
Qed.

End Scenarios.

(** The roster of three verifiers, on a store that resizes. *)

Lemma step_one :
  exec (H := KVStore) (Add_verifier verifierV) (at_ admin0 100) genesis
    = Ok () st_one [VerifierAdded verifierV].
Proof. by_eval. Qed.

Lemma step_two :
  exec (H := KVStore) (Add_verifier verifierW) (at_ admin0 200) st_one
    = Ok () st_two [VerifierAdded verifierW].
Proof.
  replace st_two with
    (set_boxes <[verifiers_key := Raw (verifierV ++ verifierW)]> st_one).
  - by_eval.
  - unfold st_one, st_two, set_boxes. cbn [boxes admin].
    by rewrite insert_insert_eq.
Qed.

Lemma step_three :
  exec (H := KVStore) (Add_verifier verifierX) (at_ admin0 300) st_two
    = Ok () st_three [VerifierAdded verifierX].
Proof.
  replace st_three with
    (set_boxes <[verifiers_key := Raw ((verifierV ++ verifierW) ++ verifierX)]>
       st_two).
  - by_eval.
  - unfold st_three, st_two, set_boxes. cbn [boxes admin].
    by rewrite insert_insert_eq, (assoc_L (++)).
Qed.

Lemma step_remove :
  exec (H := KVStore) (Remove_verifier verifierW) (at_ admin0 400) st_three
    = Ok () st_roster [VerifierRemoved verifierW].
Proof.
  replace st_roster with
    (set_boxes <[verifiers_key := Raw (verifierV ++ verifierX)]> st_three).
  - by_eval.
  - unfold st_three, st_roster, set_boxes. cbn [boxes admin].
    by rewrite insert_insert_eq.
Qed.

Lemma run_scenario_three :
  run_all (H := KVStore) scenario_three genesis = Some st_three.
Proof.
  unfold scenario_three. cbn [run_all].
  by rewrite step_one, step_two, step_three.
Qed.

Lemma run_scenario_roster :
  run_all (H := KVStore) scenario_roster genesis = Some st_roster.
Proof.
  unfold scenario_roster. rewrite run_all_app, run_scenario_three.
  cbn [mbind option_bind run_all]. by rewrite step_remove.
Qed.

Lemma reachable_three : reachable (H := KVStore) st_three.
Proof.
  exists (at_ admin0 0), scenario_three.
  split_and!; [wf_scenario..|apply run_scenario_three].
Qed.

(** ** Atomicity *)

(** C3.  Whatever public operation fails, and for whatever reason, the
    state at the point of failure is the state the call started from: every
    check of every method precedes its first write, so there is no partial
    write for the ledger to roll back. *)
Theorem failed_call_writes_nothing `{Host} call c s e s' :
  wf_call call → exec call c s = Err e s' → s' = s.
Proof.
  intros Hwf Hr. destruct call; cbn [exec wf_call] in *.
  - rewrite enroll_farmer_eq in Hr. by split_run Hr.
  - rewrite submit_claim_eq in Hr. by split_run Hr.
  - rewrite verify_claim_eq in Hr. by split_run Hr.
  - rewrite add_verifier_eq in Hr. split_run Hr; try done.
    match goal with
    | Hput : _ || _ = false |- _ => apply orb_false_iff in Hput as [_ Hlen]
    end.
    to_Prop. congruence.
  - rewrite remove_verifier_eq in Hr. by split_run Hr.
Qed.

Lemma failed_call_writes_nothing_witness :
  let o := exec (H := AVM) (Submit_claim "hash2") (at_ farmerA 2600)
             st_pending in
  o = Err ERR_DUPLICATE_CLAIM (final_state o) ∧ final_state o = st_pending.
Proof.
  split; [by_eval|].
  apply (failed_call_writes_nothing (H := AVM) (Submit_claim "hash2")
           (at_ farmerA 2600) st_pending ERR_DUPLICATE_CLAIM).
  - vm_compute. reflexivity.
  - by_eval.
Defined.

(** ** Submission *)

(** C4.  For an enrolled caller with a non-empty proof hash and no claim
    box, [submit_claim] fails with [ERR_DEADLINE_PASSED] exactly when
    [now >= claim_deadline] (equality included); before the deadline it
    succeeds and stores a claim that is PENDING, stamped [now], carries the
    given proof hash and has zero verifier address and verification time. *)
Theorem submit_claim_deadline `{Host} ph c s en :
  ph ≠ "" →
  enrollment_of s (sender c) = Some en →
  ¬ has_claim s (sender c) →
  ((∃ s', submit_claim ph c s = Err ERR_DEADLINE_PASSED s')
     ↔ (claim_deadline en ≤ latest_timestamp c)%N) ∧
  ((latest_timestamp c < claim_deadline en)%N →
     ∃ s' l, submit_claim ph c s = Ok () s' l ∧
       claim_of s' (sender c) =
         Some {| proof_hash := ph;
                 status := ClaimStatus.PENDING;
                 submission_timestamp := latest_timestamp c;
                 verifier_address := zero_address;
                 verification_timestamp := 0 |}).
Proof.
  intros Hph Hen Hfresh. unfold enrollment_of, has_claim in *.
  rewrite submit_claim_eq. rewrite bool_decide_true by done. cbn [negb].
  destruct (boxes s !! enrollment_key (sender c)) as [[| e |]|]; try done.
  simplify_eq. rewrite (bool_decide_false _ Hfresh).
  destruct (N.ltb_spec (latest_timestamp c) (claim_deadline en)) as [Hlt|Hge];
    cbn [negb].
  - split.
    + split; [by intros [s' [=]]|lia].
    + intros _. eexists _, _. split; [done|].
      unfold claim_of. cbn. by rewrite lookup_insert_eq.
  - split; [|lia]. split; [done|]. intros _. by exists s.
Qed.

Lemma submit_claim_deadline_witness :
  (∃ s', submit_claim (H := AVM) "hash1" (at_ farmerA 2593000) st_enrolled
           = Err ERR_DEADLINE_PASSED s') ∧
  (∃ s' l, submit_claim (H := AVM) "hash1" (at_ farmerA 2592999) st_enrolled
             = Ok () s' l ∧
     claim_of s' farmerA =
       Some {| proof_hash := "hash1";
               status := ClaimStatus.PENDING;
               submission_timestamp := 2592999;
               verifier_address := zero_address;
               verification_timestamp := 0 |}).
Proof.
  split.
  - apply (submit_claim_deadline (H := AVM) "hash1" (at_ farmerA 2593000)
             st_enrolled enrollmentA).
    + discriminate.
    + by_eval.
    + by_eval.
    + reflexivity.
  - apply (submit_claim_deadline (H := AVM) "hash1" (at_ farmerA 2592999)
             st_enrolled enrollmentA).
    + discriminate.
    + by_eval.
    + by_eval.
    + reflexivity.
Defined.

(** ** Verification *)

(** C8 (the code departs from the claim).  The failing input: after
    deployment by [admin0], [enroll_farmer 30] and [submit_claim "hash1"]
    by [farmerA] and [add_verifier verifierV] by the admin, [verifierV]
    is a verifier ([is_verifier] says so) and the claim of [farmerA] is
    PENDING.  [verify_claim] on that claim sent by [verifierV] fails with
    [ERR_NOT_VERIFIER], with either value of [approved], and the record is
    not updated.  On no store, in no state and for no caller does
    [verify_claim] succeed: its first line asks [_is_verifier] about
    [Txn.sender], an [Account], which no chunk of the list equals. *)
Theorem verify_claim_refuses_listed_verifier :
  deploy (at_ admin0 0) ≫= run_all (H := AVM) scenario_pending = Some st_pending ∧
  is_verifier verifierV (at_ verifierV 3000) st_pending = Ok true st_pending [] ∧
  claim_of st_pending farmerA
    = Some (claimA ClaimStatus.PENDING zero_address 0) ∧
  verify_claim (H := AVM) farmerA true (at_ verifierV 3000) st_pending
    = Err ERR_NOT_VERIFIER st_pending ∧
  verify_claim (H := AVM) farmerA false (at_ verifierV 3000) st_pending
    = Err ERR_NOT_VERIFIER st_pending ∧
  ∀ (H : Host) f approved c s s' l, verify_claim f approved c s ≠ Ok () s' l.
Proof.
  split_and!; [apply (run_scenario_pending (H := AVM))|by_eval..|].
  intros H f approved c s s' l Hr. by apply verify_claim_Ok in Hr.
Qed.

(** ** Enrollment *)

(** C9.  A successful [enroll_farmer] stores [enrollment_timestamp = now]
    and [claim_deadline = now + deadline_days * 86400], exactly: the sum
    cannot wrap, because a call whose arithmetic overflows fails.  No
    later call changes the record.  With 30 days at time t0 the call
    succeeds for a fresh identity and the deadline is t0 + 2592000. *)
Theorem enrollment_deadline `{Host} :
  (∀ d c s s' l, enroll_farmer d c s = Ok () s' l →
     enrollment_of s' (sender c) =
       Some {| enrollment_timestamp := latest_timestamp c;
               claim_deadline := latest_timestamp c + d * 86400 |} ∧
     ∀ t s'', run_all t s' = Some s'' →
       enrollment_of s'' (sender c) = enrollment_of s' (sender c)) ∧
  (∀ c s, boxes s !! enrollment_key (sender c) = None →
     (latest_timestamp c + 2592000 ≤ UInt64_max)%N →
     ∃ s' l, enroll_farmer 30 c s = Ok () s' l ∧
       enrollment_of s' (sender c) =
         Some {| enrollment_timestamp := latest_timestamp c;
                 claim_deadline := latest_timestamp c + 2592000 |}).
Proof.
  split.
  - intros d c s s' l (Hpos & Hfresh & Hfit & ->)%enroll_farmer_Ok.
    assert (enrollment_of
              (set_boxes <[enrollment_key (sender c) := EnrollmentBytes
                 {| enrollment_timestamp := latest_timestamp c;
                    claim_deadline := latest_timestamp c + d * SECONDS_PER_DAY |}]> s)
              (sender c) = Some
                 {| enrollment_timestamp := latest_timestamp c;
                    claim_deadline := latest_timestamp c + d * 86400 |}) as Hnew.
    { unfold enrollment_of. cbn. by rewrite lookup_insert_eq. }
    split; [done|]. intros t s'' Hrun. rewrite Hnew.
    eapply (run_all_ind (λ x, enrollment_of x (sender c) = Some _)); [done..|].
    intros call c1 s1 s2 l1 Hexec Hs1. by eapply exec_enrollment_of.
  - intros c s Hfresh Hfit. rewrite enroll_farmer_eq. cbn [N.ltb N.compare negb].
    rewrite Hfresh, bool_decide_is_Some_None.
    change (30 * SECONDS_PER_DAY)%N with 2592000%N.
    rewrite (proj2 (N.leb_le _ _) Hfit). cbn -[N.add UInt64_max].
    eexists _, _. split; [done|].
    unfold enrollment_of. cbn -[N.add]. by rewrite lookup_insert_eq.
Qed.

Lemma enrollment_deadline_witness :
  ∃ s' l, enroll_farmer (H := AVM) 30 (at_ farmerB 1000) st_pending = Ok () s' l ∧
    enrollment_of s' farmerB =
      Some {| enrollment_timestamp := 1000; claim_deadline := 2593000 |}.
Proof.
  destruct (enrollment_deadline (H := AVM)) as [Hpost Hrun].
  destruct (Hrun (at_ farmerB 1000) st_pending) as (s' & l & Hr & _);
    [by_eval..|].
  exists s', l. split; [exact Hr|].
  exact (proj1 (Hpost 30%N (at_ farmerB 1000) st_pending s' l Hr)).
Defined.

(** C5 (as the code has it).  For an identity that is already enrolled,
    [enroll_farmer] fails whatever [deadline_days] is, and writes nothing.
    The error is [ERR_ALREADY_ENROLLED] for every non-zero [deadline_days];
    for [deadline_days = 0] the deadline check, which comes first, fails
    with [ERR_INVALID_DEADLINE]. *)
Theorem second_enrollment_fails `{Host} d c s en :
  enrollment_of s (sender c) = Some en →
  enroll_farmer d c s =
    Err (if (d =? 0)%N then ERR_INVALID_DEADLINE else ERR_ALREADY_ENROLLED) s.
Proof.
  unfold enrollment_of. intros Hen. rewrite enroll_farmer_eq.
  destruct (boxes s !! enrollment_key (sender c)) as [b|]; [|done].
  rewrite bool_decide_is_Some_Some. by destruct d.
Qed.

Lemma second_enrollment_fails_witness :
  enroll_farmer (H := AVM) 45 (at_ farmerA 5000) st_enrolled
    = Err ERR_ALREADY_ENROLLED st_enrolled.
Proof.
  apply (second_enrollment_fails (H := AVM) 45 (at_ farmerA 5000) st_enrolled
           enrollmentA).
  by_eval.
Defined.

(** C5, counterexample: [farmerA] is enrolled in a reachable state, and a
    second [enroll_farmer] with [deadline_days = 0] fails with
    [ERR_INVALID_DEADLINE], not with [ERR_ALREADY_ENROLLED]. *)
Lemma second_enrollment_zero_days :
  deploy (at_ admin0 0) ≫= run_all (H := AVM) scenario_enrolled = Some st_enrolled ∧
  enrollment_of st_enrolled farmerA = Some enrollmentA ∧
  enroll_farmer (H := AVM) 0 (at_ farmerA 5000) st_enrolled
    = Err ERR_INVALID_DEADLINE st_enrolled ∧
  ¬ ∃ s', enroll_farmer (H := AVM) 0 (at_ farmerA 5000) st_enrolled
            = Err ERR_ALREADY_ENROLLED s'.
Proof.
  assert (enroll_farmer (H := AVM) 0 (at_ farmerA 5000) st_enrolled
            = Err ERR_INVALID_DEADLINE st_enrolled) as Heval by by_eval.
  split_and!; [by_eval|by_eval|exact Heval|].
  intros [s' Hr]. rewrite Heval in Hr. discriminate Hr.
Qed.

(** ** The claim life cycle *)


Lemma exec_claims_pending `{Host} call c s s' l :
  exec call c s = Ok () s' l →
  (∀ a cl, claim_of s a = Some cl → status cl = ClaimStatus.PENDING) →
  ∀ a cl, claim_of s' a = Some cl → status cl = ClaimStatus.PENDING.
Proof.
  intros Hr Hs a cl. specialize (Hs a cl). revert Hs. unfold claim_of.
  invert_exec Hr; try case_bool_decide; other_key; try done.
  destruct (decide (a = sender c)) as [->|]; [|by other_key].
  rewrite lookup_insert_eq. by intros _ [= <-].
Qed.

Lemma reachable_claims_pending `{Host} s a cl :
  reachable s → claim_of s a = Some cl → status cl = ClaimStatus.PENDING.
Proof.
  intros (c0 & t & _ & _ & Hr). rewrite deploy_eq in Hr. cbn in Hr. revert a cl.
  eapply (run_all_ind
            (λ x, ∀ a cl, claim_of x a = Some cl → status cl = ClaimStatus.PENDING));
    [done| |].
  - intros a cl. unfold claim_of. cbn. by rewrite lookup_empty.
  - intros call c s1 s2 l. apply exec_claims_pending.
Qed.

Lemma run_all_claim_of `{Host} t s s' a cl :
  run_all t s = Some s' → claim_of s a = Some cl → claim_of s' a = Some cl.
Proof.
  intros Hrun Hcl. eapply (run_all_ind (λ x, claim_of x a = Some cl)); [done..|].
  intros call c s1 s2 l Hexec. by eapply exec_claim_of.
Qed.

(** C1 (the code departs from the claim).  The failing input is the run
    of C8: [farmerA] has a PENDING claim and [verifierV] is a verifier;
    [verify_claim farmerA true] sent by [verifierV] fails with
    [ERR_NOT_VERIFIER], and after it, as after the same call with
    [approved = false], the claim is still PENDING.  The transition of
    the claim never takes place: in every reachable state, on every
    store, every claim is PENDING, and no sequence of calls changes a
    claim that exists. *)
Theorem claim_never_decided :
  deploy (at_ admin0 0) ≫= run_all (H := AVM) scenario_pending = Some st_pending ∧
  is_verifier verifierV (at_ verifierV 3000) st_pending = Ok true st_pending [] ∧
  exec (H := AVM) (Verify_claim farmerA true) (at_ verifierV 3000) st_pending
    = Err ERR_NOT_VERIFIER st_pending ∧
  run_all (H := AVM) [(at_ verifierV 3000, Verify_claim farmerA true)] st_pending
    = None ∧
  claim_of st_pending farmerA
    = Some (claimA ClaimStatus.PENDING zero_address 0) ∧
  (∀ (H : Host) s a cl, reachable s → claim_of s a = Some cl →
     status cl = ClaimStatus.PENDING) ∧
  (∀ (H : Host) t s s' a cl, run_all t s = Some s' →
     claim_of s a = Some cl → claim_of s' a = Some cl).
Proof.
  assert (exec (H := AVM) (Verify_claim farmerA true) (at_ verifierV 3000)
            st_pending = Err ERR_NOT_VERIFIER st_pending) as Heval by by_eval.
  split_and!.
  - apply (run_scenario_pending (H := AVM)).
  - by_eval.
  - exact Heval.
  - cbn [run_all]. by rewrite Heval.
  - by_eval.
  - intros H s a cl. apply reachable_claims_pending.
  - intros H t s s' a cl. apply run_all_claim_of.
Qed.




(** ** The verifier set *)

Lemma concat32_nil (L : list bytes) :
  Forall (λ e, length e = 32) L → length (concat L) = 0 → L = [].
Proof.
  intros HL. rewrite length_concat32 by done. destruct L; [done|]. cbn. lia.
Qed.

Section Verifiers.
Context `{Host}.

(** The effect of one successful call on the verifier set. *)
Lemma exec_verifiers call c s s' l :
  wf_call call → verifiers_inv s → exec call c s = Ok () s' l →
  verifiers s' = step_verifiers call (verifiers s) ∧
  match call with
  | Add_verifier v => v ∉ verifiers s
  | Remove_verifier v => v ∈ verifiers s
  | _ => True
  end.
Proof.
  intros Hwf Hinv Hr. unfold verifiers, verifiers_inv in *.
  invert_exec Hr; cbn [step_verifiers wf_call] in *; other_key; try done.
  - rewrite lookup_insert_eq.
    unfold verifiers in Hnew.
    destruct Hbox as [[Hbox ->]|Hbox]; rewrite Hbox in *; (split; [|done]).
    + by apply entries_single.
    + destruct Hinv as (_ & Hm & _). by apply entries_snoc.
  - rewrite Hbox in *. destruct Hinv as (_ & Hm & _).
    assert (Forall (λ e : bytes, length e = 32)
              (filter (λ e, e ≠ who) (entries bs))) as H32
      by apply Forall_filter_keep, entries_length32.
    split; [|by eapply removal_shrinks].
    case_bool_decide as Hz; cbn [boxes set_boxes].
    + rewrite lookup_delete_eq. symmetry. by apply concat32_nil.
    + rewrite lookup_insert_eq. by apply entries_concat.
Qed.

Lemma is_verifier_eq x c s :
  verifiers_inv s → is_verifier x c s = Ok (bool_decide (x ∈ verifiers s)) s [].
Proof. apply _is_verifier_verifiers. Qed.
End Verifiers.

Lemma added_not_removed_nil x : ¬ added_not_removed x [].
Proof. intros (t1 & c & t2 & Ht & _). by destruct t1. Qed.

Lemma added_not_removed_cons x c call t :
  added_not_removed x ((c, call) :: t) ↔
  added_not_removed x t ∨ (call = Add_verifier x ∧ never_removed x t).
Proof.
  split.
  - intros (t1 & c1 & t2 & Ht & Hno). destruct t1 as [|e t1]; simplify_eq/=.
    + by right.
    + left. by exists t1, c1, t2.
  - intros [(t1 & c1 & t2 & -> & Hno)|[-> Hno]].
    + by exists ((c, call) :: t1), c1, t2.
    + by exists [], c, t.
Qed.

Lemma never_removed_cons x c call t :
  never_removed x ((c, call) :: t) ↔ call ≠ Remove_verifier x ∧ never_removed x t.
Proof.
  unfold never_removed. setoid_rewrite not_elem_of_cons. split.
  - intros Hno. split; [|intros c'; apply Hno].
    intros ->. by destruct (Hno c) as [[] _].
  - intros [Hne Hno] c'. split; [congruence|apply Hno].
Qed.

Lemma elem_of_step_verifiers x call L :
  x ∈ step_verifiers call L ↔
  call = Add_verifier x ∨ (x ∈ L ∧ call ≠ Remove_verifier x).
Proof.
  destruct call as [d|ph|f a|v|v]; cbn [step_verifiers];
    rewrite ?elem_of_app, ?list_elem_of_singleton, ?list_elem_of_filter.
  1-3: split; [intros ?; by right|by intros [|[]]].
  - split.
    + intros [? | ->]; [by right|by left].
    + intros [Heq|[? _]]; [injection Heq as ->; by right|by left].
  - split.
    + intros [? ?]. right. split; [done|congruence].
    + intros [|[? Hne]]; [done|]. split; [|done]. intros ->. done.
Qed.

Section Membership.
Context `{Host}.

Lemma run_all_verifiers t s0 s x :
  verifiers_inv s0 → Forall wf_step t → run_all t s0 = Some s →
  verifiers_inv s ∧
  (x ∈ verifiers s ↔
   added_not_removed x t ∨ (x ∈ verifiers s0 ∧ never_removed x t)).
Proof.
  intros Hinv Hwf. revert s0 Hinv.
  induction Hwf as [|[c call] t [_ Hcall] _ IH]; intros s0 Hinv Hrun;
    cbn [run_all] in Hrun.
  - simplify_eq. split; [done|]. split.
    + intros Hx. right. split; [done|]. intros c'. apply not_elem_of_nil.
    + intros [[]%added_not_removed_nil|[? _]]. done.
  - destruct (exec call c s0) as [[] s1 l1|] eqn:Hexec; [|done].
    cbn [snd] in Hcall.
    destruct (exec_verifiers _ _ _ _ _ Hcall Hinv Hexec) as [Hstep _].
    destruct (IH s1) as [Hinv' Hiff];
      [by eapply exec_verifiers_inv|done|].
    split; [done|]. rewrite Hiff, Hstep, elem_of_step_verifiers.
    rewrite added_not_removed_cons, never_removed_cons. tauto.
Qed.
End Membership.

(** C6.  Starting from a state without verifier box, after any sequence
    of successful calls [is_verifier x] returns, and returns true exactly
    when the sequence contains an [add_verifier x] that no
    [remove_verifier x] follows.  In particular the admin, like anybody,
    is reported as a verifier only if it was added. *)
Theorem is_verifier_exact `{Host} s0 t s x c :
  boxes s0 !! verifiers_key = None →
  Forall wf_step t → run_all t s0 = Some s →
  (∃ b, is_verifier x c s = Ok b s [] ∧ (b = true ↔ added_not_removed x t)) ∧
  (∀ adm, admin s = Some adm → never_added adm t →
     is_verifier adm c s = Ok false s []).
Proof.
  intros Hempty Hwf Hrun.
  assert (verifiers_inv s0) as Hinv0 by (unfold verifiers_inv; by rewrite Hempty).
  assert (verifiers s0 = []) as Hnone by (unfold verifiers; by rewrite Hempty).
  assert (∀ y, verifiers_inv s ∧ (y ∈ verifiers s ↔ added_not_removed y t))
    as Hmem.
  { intros y. destruct (run_all_verifiers t s0 s y Hinv0 Hwf Hrun) as [? Hiff].
    split; [done|]. rewrite Hiff, Hnone. split; [|by left].
    intros [|[[]%elem_of_nil _]]. done. }
  split.
  - destruct (Hmem x) as [Hinv Hiff]. eexists. split; [by apply is_verifier_eq|].
    by rewrite bool_decide_eq_true.
  - intros adm _ Hnever. destruct (Hmem adm) as [Hinv Hiff].
    rewrite is_verifier_eq by done. rewrite bool_decide_false; [done|].
    rewrite Hiff. intros (t1 & c1 & t2 & -> & _).
    apply (Hnever c1), elem_of_app. right. apply elem_of_cons. by left.
Qed.

Lemma is_verifier_exact_witness :
  is_verifier verifierX (at_ farmerA 500) st_roster = Ok true st_roster [] ∧
  is_verifier admin0 (at_ farmerA 500) st_roster = Ok false st_roster [].
Proof.
  destruct (is_verifier_exact (H := KVStore) genesis scenario_roster st_roster
              verifierX (at_ farmerA 500)) as [(b & Hb & Hiff) Hadm].
  - reflexivity.
  - wf_scenario.
  - apply run_scenario_roster.
  - split.
    + rewrite Hb. f_equal. apply Hiff.
      exists [(at_ admin0 100, Add_verifier verifierV);
              (at_ admin0 200, Add_verifier verifierW)],
        (at_ admin0 300), [(at_ admin0 400, Remove_verifier verifierW)].
      split; [reflexivity|].
      intros c' Hin%list_elem_of_singleton. vm_compute in Hin. discriminate Hin.
    + apply (Hadm admin0); [reflexivity|]. intros c' Hin.
      unfold scenario_roster, scenario_three in Hin. cbn [app] in Hin.
      repeat (apply elem_of_cons in Hin as [Hin|Hin];
              [vm_compute in Hin; discriminate Hin|]).
      by apply elem_of_nil in Hin.
Defined.

(** C7.  From any state without verifier box, [add_verifier V] by the
    admin followed by [remove_verifier V] by the admin both succeed and
    give back the starting state, the box being deleted and not left
    empty.  In no reachable state does the verifier box hold an empty
    blob.  In a reachable state [remove_verifier] by the admin for an
    identity that [is_verifier] reports as non-member fails with
    [ERR_VERIFIER_NOT_FOUND] and writes nothing. *)
Theorem verifier_add_remove `{Host} :
  (∀ s c1 c2 v,
     boxes s !! verifiers_key = None →
     admin s = Some (sender c1) → sender c2 = sender c1 → length v = 32 →
     ∃ s1 l1 s2 l2,
       add_verifier v c1 s = Ok () s1 l1 ∧
       boxes s1 !! verifiers_key = Some (Raw v) ∧
       remove_verifier v c2 s1 = Ok () s2 l2 ∧
       boxes s2 !! verifiers_key = None ∧ s2 = s) ∧
  (∀ s b, reachable s →
     boxes s !! verifiers_key = Some b → blob_length b ≠ 0) ∧
  (∀ s c v, reachable s →
     admin s = Some (sender c) →
     is_verifier v c s = Ok false s [] →
     remove_verifier v c s = Err ERR_VERIFIER_NOT_FOUND s ∧
     verifiers (final_state (remove_verifier v c s)) = verifiers s).
Proof.
  split_and!.
  - intros s c1 c2 v Hempty Hadm Hc Hv.
    rewrite add_verifier_eq, Hadm, Hempty, bool_decide_refl, Hv, bool_decide_refl.
    rewrite orb_true_r. cbn [negb].
    eexists _, _, _, _. split; [done|]. cbn [boxes set_boxes].
    rewrite lookup_insert_eq. split; [done|].
    rewrite remove_verifier_eq. cbn [admin boxes set_boxes].
    rewrite Hadm, Hc, bool_decide_refl, lookup_insert_eq, entries_single by done.
    cbn [negb]. rewrite filter_cons_False, filter_nil by (by intros []).
    cbn [concat length]. rewrite bool_decide_true by lia. cbn [negb].
    rewrite bool_decide_refl. split; [done|]. cbn [boxes set_boxes].
    rewrite lookup_delete_eq. split; [done|].
    unfold set_boxes. cbn [boxes admin].
    rewrite delete_insert_id by done. by destruct s.
  - intros s b (Hinv & _)%reachable_invariant Hb.
    unfold verifiers_inv in Hinv. rewrite Hb in Hinv.
    destruct b as [bs| |]; [|done..]. by destruct Hinv as (? & _).
  - intros s c v (Hinv & _)%reachable_invariant Hadm Hv.
    rewrite is_verifier_eq in Hv by done.
    assert (v ∉ verifiers s) as Hnot.
    { injection Hv as Hv. by apply bool_decide_eq_false in Hv. }
    assert (remove_verifier v c s = Err ERR_VERIFIER_NOT_FOUND s) as Hr.
    { rewrite remove_verifier_eq, Hadm, bool_decide_refl. cbn [negb].
      unfold verifiers_inv, verifiers in *.
      destruct (boxes s !! verifiers_key) as [[bs| |]|]; try done.
      destruct Hinv as (_ & Hm & _). cbv zeta.
      rewrite filter_ne_absent, concat_entries by done.
      by rewrite bool_decide_false by lia. }
    by rewrite Hr.
Qed.

Lemma verifier_add_remove_witness :
  (∃ s1 l1 s2 l2,
     add_verifier (H := AVM) verifierV (at_ admin0 100) st_enrolled = Ok () s1 l1 ∧
     boxes s1 !! verifiers_key = Some (Raw verifierV) ∧
     remove_verifier (H := AVM) verifierV (at_ admin0 200) s1 = Ok () s2 l2 ∧
     boxes s2 !! verifiers_key = None ∧ s2 = st_enrolled) ∧
  blob_length (Raw verifierV) ≠ 0 ∧
  remove_verifier (H := AVM) verifierW (at_ admin0 4000) st_pending
    = Err ERR_VERIFIER_NOT_FOUND st_pending.
Proof.
  destruct (verifier_add_remove (H := AVM)) as (Hround & Hnonempty & Habsent).
  refine (conj _ (conj _ _)).
  - apply (Hround st_enrolled (at_ admin0 100) (at_ admin0 200) verifierV).
    + by_eval.
    + reflexivity.
    + reflexivity.
    + reflexivity.
  - apply (Hnonempty st_pending (Raw verifierV)).
    + apply reachable_pending.
    + by_eval.
  - apply (Habsent st_pending (at_ admin0 4000) verifierW).
    + apply reachable_pending.
    + reflexivity.
    + by_eval.
Defined.

(** C10.  In a reachable state, a verifier box that exists holds raw
    bytes whose length is a non-zero multiple of 32 and whose 32-byte
    entries are pairwise distinct.  Consequently a successful
    [remove_verifier v] finds [v] at exactly one position and leaves the
    entries before and after it, in their order; when none is left the box
    is deleted.  On a store whose boxes keep their size a successful
    removal is that of the only entry.  The order is that of the scan:
    on every list of that form, reachable or not, [_remove_from_list]
    returns the entries before and after the one removed, in their order,
    32 bytes shorter. *)
Theorem verifier_blob_well_formed `{Host} :
  (∀ s b, reachable s → boxes s !! verifiers_key = Some b →
     ∃ bs, b = Raw bs ∧
       length bs ≠ 0 ∧ length bs mod 32 = 0 ∧ NoDup (entries bs) ∧
       ∀ v c s' l, remove_verifier v c s = Ok () s' l →
         ∃ L1 L2, entries bs = L1 ++ v :: L2 ∧
           (v ∉ L1 ++ L2) ∧
           verifiers s' = L1 ++ L2 ∧
           boxes s' !! verifiers_key =
             (if decide (L1 ++ L2 = []) then None
              else Some (Raw (concat (L1 ++ L2)))) ∧
           (box_put_resizes = false → L1 ++ L2 = [])) ∧
  (∀ bs v c s, length bs mod 32 = 0 → NoDup (entries bs) → v ∈ entries bs →
     ∃ L1 L2, entries bs = L1 ++ v :: L2 ∧
       (v ∉ L1 ++ L2) ∧
       _remove_from_list bs v c s = Ok (concat (L1 ++ L2)) s [] ∧
       length (concat (L1 ++ L2)) + 32 = length bs).
Proof.
  assert (∀ bs v L1 L2, NoDup (entries bs) → entries bs = L1 ++ v :: L2 →
            Forall (λ e : bytes, length e = 32) (L1 ++ L2) ∧ (v ∉ L1 ++ L2) ∧
            filter (λ e, e ≠ v) (entries bs) = L1 ++ L2) as Hsplit.
  { intros bs v L1 L2 Hd HL. split_and!.
    - pose proof (entries_length32 bs) as Hall. rewrite HL in Hall.
      apply Forall_app in Hall as [? [_ ?]%Forall_cons]. by apply Forall_app.
    - rewrite HL in Hd.
      apply NoDup_app in Hd as (_ & Hd1 & [Hd2 _]%NoDup_cons).
      intros [Hv|Hv]%elem_of_app; [|done].
      apply (Hd1 v Hv), elem_of_cons. by left.
    - rewrite HL in Hd. rewrite HL. by apply filter_ne_NoDup. }
  split.
  - intros s b (Hinv & _)%reachable_invariant Hb.
    unfold verifiers_inv in Hinv. rewrite Hb in Hinv.
    destruct b as [bs| |]; [|done..]. destruct Hinv as (Hn & Hm & Hd).
    exists bs. split_and!; [done..|].
    intros v c s' l Hrun.
    assert (box_put_resizes = false →
            length (concat (filter (λ e, e ≠ v) (entries bs))) = 0) as Hkeep.
    { intros Hno. rewrite remove_verifier_eq, Hb, Hno in Hrun.
      cbn [orb] in Hrun. split_run Hrun; [done|lia]. }
    apply remove_verifier_Ok in Hrun as (_ & bs' & Hbox & Hlt & ->).
    rewrite Hb in Hbox. simplify_eq. cbv zeta in Hlt.
    destruct (list_elem_of_split _ _ (removal_shrinks _ _ Hm Hlt))
      as (L1 & L2 & HL).
    exists L1, L2. split; [done|].
    destruct (Hsplit bs' v L1 L2 Hd HL) as (H32 & Hnot & Hfilter).
    rewrite Hfilter in *. split; [done|].
    unfold verifiers. case_bool_decide as Hz; cbn [boxes set_boxes].
    + rewrite lookup_delete_eq. apply concat32_nil in Hz; [|done].
      by rewrite Hz, decide_True.
    + rewrite lookup_insert_eq, entries_concat by done. split_and!; [done| |].
      * rewrite decide_False; [done|]. intros Hnil. by rewrite Hnil in Hz.
      * intros Hno. by destruct (Hz (Hkeep Hno)).
  - intros bs v c s Hm Hd Hin.
    destruct (list_elem_of_split _ _ Hin) as (L1 & L2 & HL).
    exists L1, L2. split; [done|].
    destruct (Hsplit bs v L1 L2 Hd HL) as (H32 & Hnot & Hfilter).
    split; [done|]. rewrite _remove_from_list_eq, Hfilter. split; [done|].
    assert (length bs = length (entries bs) * 32) as ->.
    { rewrite <- length_concat32 by apply entries_length32.
      by rewrite concat_entries. }
    rewrite length_concat32 by done.
    rewrite HL, !length_app. cbn [length]. lia.
Qed.

Lemma verifier_blob_well_formed_witness :
  (length verifierV ≠ 0 ∧ length verifierV mod 32 = 0 ∧
   NoDup (entries verifierV) ∧
   ∃ L1 L2, entries verifierV = L1 ++ verifierV :: L2 ∧
     (verifierV ∉ L1 ++ L2) ∧
     verifiers st_retired = L1 ++ L2 ∧
     boxes st_retired !! verifiers_key =
       (if decide (L1 ++ L2 = []) then None
        else Some (Raw (concat (L1 ++ L2)))) ∧
     (box_put_resizes (Host := AVM) = false → L1 ++ L2 = [])) ∧
  ∃ L1 L2, entries (verifierV ++ verifierW ++ verifierX) = L1 ++ verifierW :: L2 ∧
    (verifierW ∉ L1 ++ L2) ∧
    _remove_from_list (verifierV ++ verifierW ++ verifierX) verifierW
      (at_ admin0 400) genesis = Ok (concat (L1 ++ L2)) genesis [] ∧
    length (concat (L1 ++ L2)) + 32
      = length (verifierV ++ verifierW ++ verifierX).
Proof.
  destruct (verifier_blob_well_formed (H := AVM)) as [Hstored Hscan]. split.
  - destruct (Hstored st_pending (Raw verifierV))
      as (bs & Hbs & Hn & Hm & Hd & Hrem).
    + apply reachable_pending.
    + by_eval.
    + injection Hbs as <-. split_and!; [done..|].
      apply (Hrem verifierV (at_ admin0 3500) st_retired
               [VerifierRemoved verifierV]).
      apply (step_retire (H := AVM)).
  - apply (Hscan (verifierV ++ verifierW ++ verifierX) verifierW
             (at_ admin0 400) genesis).
    + reflexivity.
    + apply (bool_decide_unpack _). vm_compute. exact I.
    + apply (bool_decide_unpack _). vm_compute. exact I.
Defined.

(** ** The two stores, compared on the scenarios *)

(** Removing the middle verifier of three keeps the other two in order. *)
Example remove_middle_verifier :
  run_all (H := KVStore) scenario_roster genesis = Some st_roster ∧
  verifiers st_three = [verifierV; verifierW; verifierX] ∧
  verifiers st_roster = [verifierV; verifierX].
Proof. split_and!; by_eval. Qed.

(** On the AVM the first verifier fills a 32-byte box, and the [box_put]
    of a longer list into it is refused: a second [add_verifier] fails. *)
Example second_verifier_on_AVM :
  add_verifier (H := AVM) verifierW (at_ admin0 2600) st_pending
    = Err VM_BOX_SIZE st_pending ∧
  add_verifier (H := KVStore) verifierW (at_ admin0 2600) st_pending
    = Ok () (set_boxes <[verifiers_key := Raw (verifierV ++ verifierW)]> st_pending)
        [VerifierAdded verifierW].
Proof. split; by_eval. Qed.

(** The scenario of the specification up to the verification runs the
    same on both stores. *)
Example scenarios_on_both_stores :
  deploy (at_ admin0 0) ≫= run_all (H := KVStore) scenario_pending
    = Some st_pending ∧
  deploy (at_ admin0 0) ≫= run_all (H := AVM) scenario_pending
    = Some st_pending ∧
  submit_claim (H := AVM) "hash2" (at_ farmerB 2000) st_pending
    = Err ERR_NOT_ENROLLED st_pending ∧
  add_verifier (H := AVM) verifierV (at_ admin0 2600) st_pending
    = Err ERR_VERIFIER_EXISTS st_pending.
Proof.
  split_and!; [apply (run_scenario_pending (H := KVStore))
              |apply (run_scenario_pending (H := AVM))|by_eval..].
Qed.

(** * The whole method surface and the deployment scripts *)

(** ** Typed boxes *)

Lemma boxes_typed_insert s k v :
  boxes_typed s →
  ((∃ a e, k = enrollment_key a ∧ length a = 32 ∧ v = EnrollmentBytes e) ∨
   (∃ a cl, k = claim_key a ∧ length a = 32 ∧ v = ClaimBytes cl) ∨
   (k = verifiers_key ∧ ∃ bs, v = Raw bs)) →
  boxes_typed (set_boxes <[k := v]> s).
Proof.
  intros Hs Hkv k' b. cbn [boxes set_boxes].
  destruct (decide (k' = k)) as [->|Hne].
  - rewrite lookup_insert_eq. by intros [= <-].
  - rewrite lookup_insert_ne by done. apply Hs.
Qed.

Lemma boxes_typed_delete s k :
  boxes_typed s → boxes_typed (set_boxes (delete k) s).
Proof.
  intros Hs k' b. cbn [boxes set_boxes].
  intros [_ Hb]%lookup_delete_Some. by apply Hs.
Qed.

Lemma boxes_typed_enrollment s a b :
  boxes_typed s → boxes s !! enrollment_key a = Some b →
  length a = 32 ∧ ∃ e, b = EnrollmentBytes e.
Proof.
  intros Hs Hb.
  destruct (Hs _ _ Hb) as [(a' & e & Hk & Ha & ->)|[(a' & cl & Hk & _)|[Hk _]]].
  - apply enrollment_key_inj in Hk as ->. eauto.
  - by destruct (claim_enrollment_key a' a).
  - by destruct (enrollment_verifiers_key a).
Qed.

Lemma boxes_typed_claim s a b :
  boxes_typed s → boxes s !! claim_key a = Some b →
  length a = 32 ∧ ∃ cl, b = ClaimBytes cl.
Proof.
  intros Hs Hb.
  destruct (Hs _ _ Hb) as [(a' & e & Hk & _)|[(a' & cl & Hk & Ha & ->)|[Hk _]]].
  - by destruct (claim_enrollment_key a a').
  - apply claim_key_inj in Hk as ->. eauto.
  - by destruct (claim_verifiers_key a).
Qed.

Section Typed.
Context `{Host}.

Lemma exec_boxes_typed call c s s' l :
  wf_ctx c → exec call c s = Ok () s' l → boxes_typed s → boxes_typed s'.
Proof.
  intros [Hc _] Hr Hs. invert_exec Hr.
  - apply boxes_typed_insert; [done|]. left. by eexists _, _.
  - apply boxes_typed_insert; [done|]. right; left. by eexists _, _.
  - apply boxes_typed_insert; [done|]. right; right. split; [done|]. by eexists.
  - case_bool_decide.
    + by apply boxes_typed_delete.
    + apply boxes_typed_insert; [done|]. right; right. split; [done|]. by eexists.
Qed.

Lemma reachable_boxes_typed s : reachable s → boxes_typed s.
Proof.
  intros (c0 & t & _ & Ht & Hr). rewrite deploy_eq in Hr. cbn in Hr.
  assert (boxes_typed {| admin := Some (sender c0); boxes := ∅ |}) as Hs0.
  { intros k b. cbn. by rewrite lookup_empty. }
  revert Hr Hs0. generalize {| admin := Some (sender c0); boxes := ∅ |}.
  induction Ht as [|[c call] t [Hc _] _ IH]; intros s0 Hr Hs0; cbn in Hr.
  - by simplify_eq.
  - destruct (exec call c s0) as [[] s1 l1|] eqn:He; [|done].
    eapply IH; [done|]. by eapply exec_boxes_typed.
Qed.

(** ** The records of a reachable state *)

Lemma exec_records_inv call c s s' l :
  wf_ctx c → exec call c s = Ok () s' l → records_inv s → records_inv s'.
Proof.
  intros [Hc _] Hr [HE HC].
  unfold records_inv, enrollment_of, claim_of in *.
  invert_exec Hr; try case_bool_decide;
    (split; [intros a e|intros a cl]); other_key; eauto.
  - (* enroll_farmer, the enrollments *)
    destruct (decide (a = sender c)) as [->|]; [|other_key; apply HE].
    rewrite lookup_insert_eq. intros [= <-]. unfold enrollment_ok. cbn.
    unfold SECONDS_PER_DAY in *. split; [lia|done].
  - (* enroll_farmer, the claims *)
    intros Ha. destruct (HC a cl Ha) as (en & Hena & Hok).
    destruct (decide (a = sender c)) as [->|]; [|other_key; eauto].
    by rewrite Hfresh in Hena.
  - (* submit_claim *)
    destruct (decide (a = sender c)) as [->|].
    + rewrite lookup_insert_eq. intros [= <-]. exists en.
      rewrite lookup_insert_ne, Hen by key_ne. split; [done|].
      unfold claim_ok, decided. cbn. done.
    + rewrite lookup_insert_ne by key_ne. intros Ha.
      destruct (HC a cl Ha) as (en' & Hena & Hok). exists en'.
      by rewrite lookup_insert_ne by key_ne.
Qed.

Lemma run_all_records_inv t s s' :
  Forall wf_step t → run_all t s = Some s' → records_inv s → records_inv s'.
Proof.
  intros Hwf. revert s. induction Hwf as [|[c call] t [Hc _] _ IH];
    intros s Hr Hs; cbn in Hr.
  - by simplify_eq.
  - destruct (exec call c s) as [[] s1 l1|] eqn:He; [|done].
    eapply IH; [done|]. by eapply exec_records_inv.
Qed.

Lemma reachable_records_inv s : reachable s → records_inv s.
Proof.
  intros (c0 & t & _ & Ht & Hr). rewrite deploy_eq in Hr. cbn in Hr.
  eapply run_all_records_inv; [done..|].
  unfold records_inv, enrollment_of, claim_of. cbn.
  split; intros a x; by rewrite lookup_empty.
Qed.
End Typed.

(** ** The read-only methods *)

Lemma get_claim_eq a c s :
  get_claim a c s =
  match boxes s !! claim_key a with
  | None => Err ERR_CLAIM_NOT_FOUND s
  | Some (ClaimBytes cl) => Ok (claim_details a cl) s []
  | Some _ => Err VM_DECODE s
  end.
Proof.
  unfold get_claim, claim_key. unfold_M.
  by destruct (boxes s !! (bytes_of "claim_" ++ a)) as [[bs|e|cl]|] eqn:Hb; simp_M.
Qed.

Lemma get_enrollment_eq a c s :
  get_enrollment a c s =
  match boxes s !! enrollment_key a with
  | None => Err ERR_ENROLLMENT_NOT_FOUND s
  | Some (EnrollmentBytes e) => Ok (enrollment_details a e) s []
  | Some _ => Err VM_DECODE s
  end.
Proof.
  unfold get_enrollment, enrollment_key. unfold_M.
  by destruct (boxes s !! (bytes_of "enrollment_" ++ a)) as [[bs|e|cl]|] eqn:Hb;
    simp_M.
Qed.

(** X1.  The four query methods, [get_claim], [get_enrollment],
    [is_verifier] and [get_admin], never write: on every state and for
    every caller, whether they return or fail, the state is the one they
    started from and no event is emitted. *)
Theorem queries_are_read_only a :
  read_only (get_claim a) ∧ read_only (get_enrollment a) ∧
  read_only (is_verifier a) ∧ read_only get_admin.
Proof.
  unfold read_only. split_and!; intros c s.
  - rewrite get_claim_eq. by destruct (boxes s !! claim_key a) as [[| |]|].
  - rewrite get_enrollment_eq.
    by destruct (boxes s !! enrollment_key a) as [[| |]|].
  - unfold is_verifier. rewrite _is_verifier_eq.
    by destruct (boxes s !! verifiers_key) as [[| |]|].
  - unfold get_admin, admin_value. by destruct (admin s).
Qed.

(** X2.  In a reachable state [get_claim a] fails with
    [ERR_CLAIM_NOT_FOUND] exactly when [a] has no claim; otherwise it
    returns the stored record, field by field, under the queried
    address.  It never fails in another way. *)
Theorem get_claim_returns_record `{Host} s a c :
  reachable s →
  get_claim a c s =
    match claim_of s a with
    | Some cl =>
        Ok {| cd_farmer_address := a;
              cd_proof_hash := proof_hash cl;
              cd_status := status cl;
              cd_submission_timestamp := submission_timestamp cl;
              cd_verifier_address := verifier_address cl;
              cd_verification_timestamp := verification_timestamp cl |} s []
    | None => Err ERR_CLAIM_NOT_FOUND s
    end.
Proof.
  intros Hs%reachable_boxes_typed. rewrite get_claim_eq. unfold claim_of.
  destruct (boxes s !! claim_key a) as [b|] eqn:Hb; [|done].
  by destruct (boxes_typed_claim _ _ _ Hs Hb) as [_ [cl ->]].
Qed.

Lemma get_claim_returns_record_witness :
  get_claim farmerA (at_ farmerB 5000) st_pending =
    Ok {| cd_farmer_address := farmerA;
          cd_proof_hash := "hash1";
          cd_status := ClaimStatus.PENDING;
          cd_submission_timestamp := 2000;
          cd_verifier_address := zero_address;
          cd_verification_timestamp := 0 |} st_pending [] ∧
  get_claim farmerB (at_ farmerB 5000) st_pending
    = Err ERR_CLAIM_NOT_FOUND st_pending.
Proof.
  split.
  - rewrite (get_claim_returns_record (H := AVM) st_pending farmerA
               (at_ farmerB 5000) reachable_pending).
    by_eval.
  - rewrite (get_claim_returns_record (H := AVM) st_pending farmerB
               (at_ farmerB 5000) reachable_pending).
    by_eval.
Defined.

(** X3.  In a reachable state [get_enrollment a] fails with
    [ERR_ENROLLMENT_NOT_FOUND] exactly when [a] is not enrolled;
    otherwise it returns the enrollment time and the deadline of the
    stored record under the queried address. *)
Theorem get_enrollment_returns_record `{Host} s a c :
  reachable s →
  get_enrollment a c s =
    match enrollment_of s a with
    | Some e =>
        Ok {| ed_farmer_address := a;
              ed_enrollment_timestamp := enrollment_timestamp e;
              ed_claim_deadline := claim_deadline e |} s []
    | None => Err ERR_ENROLLMENT_NOT_FOUND s
    end.
Proof.
  intros Hs%reachable_boxes_typed. rewrite get_enrollment_eq. unfold enrollment_of.
  destruct (boxes s !! enrollment_key a) as [b|] eqn:Hb; [|done].
  by destruct (boxes_typed_enrollment _ _ _ Hs Hb) as [_ [e ->]].
Qed.

Lemma get_enrollment_returns_record_witness :
  get_enrollment farmerA (at_ farmerB 5000) st_pending =
    Ok {| ed_farmer_address := farmerA;
          ed_enrollment_timestamp := 1000;
          ed_claim_deadline := 2593000 |} st_pending [] ∧
  get_enrollment farmerB (at_ farmerB 5000) st_pending
    = Err ERR_ENROLLMENT_NOT_FOUND st_pending.
Proof.
  split.
  - rewrite (get_enrollment_returns_record (H := AVM) st_pending farmerA
               (at_ farmerB 5000) reachable_pending).
    by_eval.
  - rewrite (get_enrollment_returns_record (H := AVM) st_pending farmerB
               (at_ farmerB 5000) reachable_pending).
    by_eval.
Defined.

(** X4.  What [enroll_farmer] wrote, [get_enrollment] reads: after a
    successful enrollment, any caller's query of the enrolled identity
    returns the time of the call and that time plus
    [deadline_days * 86400]. *)
Theorem enroll_then_get_enrollment `{Host} d c s s' l c' :
  enroll_farmer d c s = Ok () s' l →
  get_enrollment (sender c) c' s' =
    Ok {| ed_farmer_address := sender c;
          ed_enrollment_timestamp := latest_timestamp c;
          ed_claim_deadline := latest_timestamp c + d * 86400 |} s' [].
Proof.
  intros (_ & _ & _ & ->)%enroll_farmer_Ok. rewrite get_enrollment_eq.
  cbn [boxes set_boxes]. by rewrite lookup_insert_eq.
Qed.

Lemma enroll_then_get_enrollment_witness :
  get_enrollment farmerA (at_ farmerB 7) st_enrolled =
    Ok {| ed_farmer_address := farmerA;
          ed_enrollment_timestamp := 1000;
          ed_claim_deadline := 1000 + 30 * 86400 |} st_enrolled [].
Proof.
  apply (enroll_then_get_enrollment (H := AVM) 30 (at_ farmerA 1000) genesis
           st_enrolled [FarmerEnrolled farmerA 2593000] (at_ farmerB 7)).
  apply (step_enroll (H := AVM)).
Defined.

(** X5.  What [submit_claim] wrote, [get_claim] reads, then and later:
    after a successful submission the caller's claim is returned, to
    whoever asks, as PENDING with the proof hash and the time of the
    call, the zero verifier address and verification time 0; and
    [get_claim] gives this same answer after any further sequence of
    successful calls. *)
Theorem write_then_get_claim `{Host} ph c s s' l :
  submit_claim ph c s = Ok () s' l →
  ∀ t s'' c', run_all t s' = Some s'' →
    get_claim (sender c) c' s'' =
      Ok {| cd_farmer_address := sender c;
            cd_proof_hash := ph;
            cd_status := ClaimStatus.PENDING;
            cd_submission_timestamp := latest_timestamp c;
            cd_verifier_address := zero_address;
            cd_verification_timestamp := 0 |} s'' [].
Proof.
  intros (_ & _ & _ & ->)%submit_claim_Ok t s'' c' Hrun.
  assert (claim_of s'' (sender c) =
            Some {| proof_hash := ph;
                    status := ClaimStatus.PENDING;
                    submission_timestamp := latest_timestamp c;
                    verifier_address := zero_address;
                    verification_timestamp := 0 |}) as Hcl.
  { eapply run_all_claim_of; [done|].
    unfold claim_of. cbn [boxes set_boxes]. by rewrite lookup_insert_eq. }
  rewrite get_claim_eq. unfold claim_of in Hcl.
  destruct (boxes s'' !! claim_key (sender c)) as [[| |cl]|]; try done.
  by injection Hcl as ->.
Qed.

Lemma write_then_get_claim_witness :
  get_claim farmerA (at_ farmerB 7) st_pending =
    Ok {| cd_farmer_address := farmerA;
          cd_proof_hash := "hash1";
          cd_status := ClaimStatus.PENDING;
          cd_submission_timestamp := 2000;
          cd_verifier_address := zero_address;
          cd_verification_timestamp := 0 |} st_pending [].
Proof.
  apply (write_then_get_claim (H := AVM) "hash1" (at_ farmerA 2000) st_enrolled
           st_submitted [ClaimSubmitted farmerA "hash1"]
           (step_submit (H := AVM))
           [(at_ admin0 2500, Add_verifier verifierV)]).
  cbn [run_all]. by rewrite step_roster.
Defined.

(** X6.  The admin is the sender of the creation call and stays so:
    after deployment and any sequence of successful calls, [get_admin]
    returns the deployer, whoever asks. *)
Theorem get_admin_is_deployer `{Host} c0 t s c :
  deploy c0 ≫= run_all t = Some s → get_admin c s = Ok (sender c0) s [].
Proof.
  rewrite deploy_eq. cbn [mbind option_bind]. intros Hr.
  assert (admin s = Some (sender c0)) as Hadm.
  { eapply (run_all_ind (λ x, admin x = Some (sender c0))); [done..|].
    intros call c1 s1 s2 l1 Hexec <-. by eapply exec_admin. }
  unfold get_admin, admin_value. by rewrite Hadm.
Qed.

Lemma get_admin_is_deployer_witness :
  get_admin (at_ farmerB 9000) st_pending = Ok admin0 st_pending [].
Proof.
  apply (get_admin_is_deployer (H := AVM) (at_ admin0 0) scenario_pending
           st_pending (at_ farmerB 9000)).
  apply (run_scenario_pending (H := AVM)).
Defined.

(** ** Who may change what *)

(** X7.  The verifier roster is the admin's alone.  For a caller other
    than the admin, [add_verifier] and [remove_verifier] fail with
    [ERR_NOT_ADMIN] whatever the address and the roster, before anything
    else is checked.  And whenever a successful call of any method
    changes the verifier box, the caller is the admin and the call is
    [add_verifier] or [remove_verifier]. *)
Theorem roster_is_admin_only `{Host} :
  (∀ v c s adm, admin s = Some adm → sender c ≠ adm →
     add_verifier v c s = Err ERR_NOT_ADMIN s ∧
     remove_verifier v c s = Err ERR_NOT_ADMIN s) ∧
  (∀ call c s s' l, exec call c s = Ok () s' l →
     boxes s' !! verifiers_key ≠ boxes s !! verifiers_key →
     admin s = Some (sender c) ∧
     ∃ v, call = Add_verifier v ∨ call = Remove_verifier v).
Proof.
  split.
  - intros v c s adm Hadm Hne.
    rewrite add_verifier_eq, remove_verifier_eq, Hadm.
    by rewrite bool_decide_false by done.
  - intros call c s s' l Hr.
    invert_exec Hr; other_key; try done; intros _; eauto.
Qed.

Lemma roster_is_admin_only_witness :
  (add_verifier (H := AVM) farmerB (at_ farmerB 4000) st_pending
     = Err ERR_NOT_ADMIN st_pending ∧
   remove_verifier (H := AVM) verifierV (at_ farmerB 4000) st_pending
     = Err ERR_NOT_ADMIN st_pending) ∧
  (admin st_submitted = Some (sender (at_ admin0 2500)) ∧
   ∃ v, Add_verifier verifierV = Add_verifier v ∨
        Add_verifier verifierV = Remove_verifier v).
Proof.
  destruct (roster_is_admin_only (H := AVM)) as [Hother Hadmin]. split.
  - apply (Hother farmerB (at_ farmerB 4000) st_pending admin0).
    + reflexivity.
    + vm_compute. intros Heq. discriminate Heq.
  - apply (Hadmin (Add_verifier verifierV) (at_ admin0 2500) st_submitted
             st_pending [VerifierAdded verifierV]).
    + apply (step_roster (H := AVM)).
    + assert (boxes st_pending !! verifiers_key = Some (Raw verifierV)) as ->
        by by_eval.
      assert (boxes st_submitted !! verifiers_key = None) as -> by by_eval.
      discriminate.
Defined.

(** X8.  A claim is written by its owner, once.  Whenever a successful
    call of any method changes what is stored as the claim of an
    identity, the call is a [submit_claim] sent by that identity, which
    had no claim, and the claim written is PENDING.  No other identity,
    verifier or admin, creates or changes it, and a claim that exists is
    never rewritten. *)
Theorem claim_written_by_owner_only `{Host} call c s s' l a :
  exec call c s = Ok () s' l → claim_of s' a ≠ claim_of s a →
  (∃ ph, call = Submit_claim ph) ∧ a = sender c ∧ claim_of s a = None ∧
  ∃ cl, claim_of s' a = Some cl ∧ status cl = ClaimStatus.PENDING.
Proof.
  intros Hr. unfold claim_of.
  invert_exec Hr; try case_bool_decide; other_key; try done.
  destruct (decide (a = sender c)) as [->|]; [|by other_key].
  rewrite lookup_insert_eq, Hfresh. intros _. split_and!; eauto.
Qed.

Lemma claim_written_by_owner_only_witness :
  (∃ ph, Submit_claim "hash1" = Submit_claim ph) ∧
  farmerA = sender (at_ farmerA 2000) ∧ claim_of st_enrolled farmerA = None ∧
  ∃ cl, claim_of st_submitted farmerA = Some cl ∧
    status cl = ClaimStatus.PENDING.
Proof.
  apply (claim_written_by_owner_only (H := AVM) (Submit_claim "hash1")
           (at_ farmerA 2000) st_enrolled st_submitted
           [ClaimSubmitted farmerA "hash1"] farmerA).
  - apply (step_submit (H := AVM)).
  - assert (claim_of st_submitted farmerA
              = Some (claimA ClaimStatus.PENDING zero_address 0)) as -> by by_eval.
    assert (claim_of st_enrolled farmerA = None) as -> by by_eval.
    discriminate.
Defined.

(** ** Events *)

(** X9.  A successful call emits exactly one event, and the event is
    determined by the call and its transaction: [FarmerEnrolled] with
    the caller and the computed deadline, [ClaimSubmitted] with the
    caller and the proof hash, [ClaimVerified] with the identity, the
    decided status and the caller, [VerifierAdded] and [VerifierRemoved]
    with the address. *)
Theorem one_event_per_call `{Host} call c s s' l :
  exec call c s = Ok () s' l → l = [event_of call c].
Proof.
  intros Hr. destruct call; cbn [exec event_of] in *.
  - rewrite enroll_farmer_eq in Hr. by split_run Hr.
  - rewrite submit_claim_eq in Hr. by split_run Hr.
  - by apply verify_claim_Ok in Hr.
  - rewrite add_verifier_eq in Hr. by split_run Hr.
  - rewrite remove_verifier_eq in Hr. by split_run Hr.
Qed.

Lemma one_event_per_call_witness :
  [ClaimSubmitted farmerA "hash1"]
    = [event_of (Submit_claim "hash1") (at_ farmerA 2000)].
Proof.
  apply (one_event_per_call (H := AVM) (Submit_claim "hash1")
           (at_ farmerA 2000) st_enrolled st_submitted).
  apply (step_submit (H := AVM)).
Defined.

(** ** The decisions of the methods, in reachable states *)

(** X10.  [enroll_farmer] succeeds exactly when [deadline_days] is
    positive, the caller has no enrollment box and
    [now + deadline_days * 86400] fits 64 bits.  When only the last
    condition fails the call fails with an arithmetic overflow, and
    nothing is written: the contract never stores a wrapped deadline. *)
Theorem enroll_farmer_succeeds_iff `{Host} d c s :
  ((∃ s' l, enroll_farmer d c s = Ok () s' l) ↔
     (0 < d)%N ∧ boxes s !! enrollment_key (sender c) = None ∧
     (latest_timestamp c + d * 86400 ≤ UInt64_max)%N) ∧
  ((0 < d)%N → boxes s !! enrollment_key (sender c) = None →
   (UInt64_max < latest_timestamp c + d * 86400)%N →
   enroll_farmer d c s = Err VM_OVERFLOW s).
Proof.
  rewrite enroll_farmer_eq. unfold SECONDS_PER_DAY, UInt64_max. split.
  - split.
    + intros (s' & l & Hr). split_run Hr.
      split_and!; [done| |done]. by apply eq_None_not_Some.
    + intros (Hpos & Hfresh & Hfit). eexists _, _.
      rewrite (proj2 (N.ltb_lt _ _) Hpos), Hfresh. rewrite (bool_decide_is_Some_None (A := Blob)).
      rewrite (proj2 (N.leb_le _ _) Hfit).
      rewrite (proj2 (N.leb_le (d * 86400) _)) by lia.
      cbn [negb]. reflexivity.
  - intros Hpos Hfresh Hover.
    rewrite (proj2 (N.ltb_lt _ _) Hpos), Hfresh, (bool_decide_is_Some_None (A := Blob)).
    rewrite (proj2 (N.leb_gt _ _) Hover). cbn [negb].
    by destruct (_ <=? _)%N.
Qed.

Lemma enroll_farmer_succeeds_iff_witness :
  (∃ s' l, enroll_farmer (H := AVM) 30 (at_ farmerB 1000) st_pending = Ok () s' l) ∧
  enroll_farmer (H := AVM) 30 (at_ farmerB (UInt64_max - 2591999)) st_pending
    = Err VM_OVERFLOW st_pending.
Proof.
  split.
  - apply (enroll_farmer_succeeds_iff (H := AVM) 30 (at_ farmerB 1000) st_pending).
    split_and!; [reflexivity|by_eval|by_eval].
  - apply (enroll_farmer_succeeds_iff (H := AVM) 30
             (at_ farmerB (UInt64_max - 2591999)) st_pending).
    + reflexivity.
    + by_eval.
    + reflexivity.
Defined.

(** X11.  The decision of [submit_claim] in a reachable state, check by
    check in the order of the code: an empty proof hash, then a caller
    without enrollment, then a deadline that is reached, then an existing
    claim; otherwise the PENDING claim is written and [ClaimSubmitted]
    emitted.  No other failure is possible. *)
Theorem submit_claim_decision `{Host} ph c s :
  reachable s →
  submit_claim ph c s =
    if bool_decide (ph = "") then Err ERR_INVALID_PROOF_HASH s
    else match enrollment_of s (sender c) with
    | None => Err ERR_NOT_ENROLLED s
    | Some en =>
        if (claim_deadline en <=? latest_timestamp c)%N
        then Err ERR_DEADLINE_PASSED s
        else match claim_of s (sender c) with
        | Some _ => Err ERR_DUPLICATE_CLAIM s
        | None =>
            Ok () (set_boxes <[claim_key (sender c) := ClaimBytes
                     {| proof_hash := ph;
                        status := ClaimStatus.PENDING;
                        submission_timestamp := latest_timestamp c;
                        verifier_address := zero_address;
                        verification_timestamp := 0 |}]> s)
               [ClaimSubmitted (sender c) ph]
        end
    end.
Proof.
  intros Hs%reachable_boxes_typed. rewrite submit_claim_eq.
  unfold enrollment_of, claim_of.
  destruct (decide (ph = "")) as [->|Hph]; [done|].
  rewrite (bool_decide_true (ph ≠ "")), (bool_decide_false (ph = "")) by done.
  cbn [negb].
  destruct (boxes s !! enrollment_key (sender c)) as [b|] eqn:Hb; [|done].
  destruct (boxes_typed_enrollment _ _ _ Hs Hb) as [_ [en ->]].
  rewrite N.leb_antisym. destruct (_ <? _)%N; cbn [negb]; [|done].
  destruct (boxes s !! claim_key (sender c)) as [b'|] eqn:Hc.
  - destruct (boxes_typed_claim _ _ _ Hs Hc) as [_ [cl ->]].
    by rewrite bool_decide_is_Some_Some.
  - by rewrite (bool_decide_is_Some_None (A := Blob)).
Qed.

Lemma submit_claim_decision_witness :
  submit_claim (H := AVM) "hash2" (at_ farmerB 2000) st_pending
    = Err ERR_NOT_ENROLLED st_pending ∧
  submit_claim (H := AVM) "" (at_ farmerB 2000) st_pending
    = Err ERR_INVALID_PROOF_HASH st_pending.
Proof.
  split.
  - rewrite (submit_claim_decision (H := AVM) "hash2" (at_ farmerB 2000)
               st_pending reachable_pending).
    rewrite bool_decide_false by discriminate.
    assert (enrollment_of st_pending (sender (at_ farmerB 2000)) = None) as ->
      by by_eval.
    reflexivity.
  - rewrite (submit_claim_decision (H := AVM) "" (at_ farmerB 2000)
               st_pending reachable_pending).
    reflexivity.
Defined.

(** X12.  The decision of [verify_claim] in a reachable state: the call
    fails with [ERR_NOT_VERIFIER], whoever sends it, members of the
    verifier set included, whatever the identity and the value of
    [approved], and whether or not a claim exists; nothing is written.
    The checks that follow the first, for the existence and the status
    of the claim, are never reached. *)
Theorem verify_claim_decision `{Host} f approved c s :
  reachable s →
  verify_claim f approved c s = Err ERR_NOT_VERIFIER s.
Proof.
  intros (Hv & _)%reachable_invariant. rewrite verify_claim_eq.
  unfold verifiers_inv in Hv.
  by destruct (boxes s !! verifiers_key) as [[| |]|].
Qed.

Lemma verify_claim_decision_witness :
  verifiers st_pending = [verifierV] ∧
  verify_claim (H := AVM) farmerA true (at_ verifierV 4000) st_pending
    = Err ERR_NOT_VERIFIER st_pending ∧
  verify_claim (H := AVM) farmerB true (at_ admin0 4000) st_pending
    = Err ERR_NOT_VERIFIER st_pending.
Proof.
  split_and!.
  - by_eval.
  - apply (verify_claim_decision (H := AVM) farmerA true (at_ verifierV 4000)
             st_pending reachable_pending).
  - apply (verify_claim_decision (H := AVM) farmerB true (at_ admin0 4000)
             st_pending reachable_pending).
Defined.

(** X13.  The decision of [add_verifier] in a reachable state, for a
    32-byte address: a caller other than the admin, then an address
    already in the set; otherwise the address is appended to the stored
    list.  The write of a list that grows is accepted by a store whose
    [box_put] resizes and refused by one whose boxes keep their size:
    there the call succeeds only while the set is empty. *)
Theorem add_verifier_decision `{Host} v c s :
  reachable s → length v = 32 →
  add_verifier v c s =
    if bool_decide (admin s = Some (sender c)) then
      if bool_decide (v ∈ verifiers s) then Err ERR_VERIFIER_EXISTS s
      else if bool_decide (verifiers s = []) || box_put_resizes then
        Ok () (set_boxes <[verifiers_key := Raw (concat (verifiers s) ++ v)]> s)
           [VerifierAdded v]
      else Err VM_BOX_SIZE s
    else Err ERR_NOT_ADMIN s.
Proof.
  intros (Hv & _ & adm & Hadm & _)%reachable_invariant Hlen.
  rewrite add_verifier_eq, Hadm. unfold verifiers_inv, verifiers in *.
  destruct (decide (sender c = adm)) as [<-|Hne].
  - rewrite !bool_decide_refl. cbn [negb].
    destruct (boxes s !! verifiers_key) as [[bs| |]|]; try done.
    + destruct Hv as (Hn & Hm & _). rewrite concat_entries by done.
      destruct (bool_decide (v ∈ entries bs)); [done|].
      rewrite (bool_decide_false (entries bs = [])).
      * rewrite (bool_decide_false (length bs = _)); [by rewrite orb_false_r|].
        rewrite length_app. lia.
      * intros Hnil. apply Hn. rewrite <- (concat_entries bs) by done.
        by rewrite Hnil.
    + rewrite (bool_decide_false (v ∈ [])) by apply not_elem_of_nil.
      rewrite Hlen, !bool_decide_refl, orb_true_r. done.
  - rewrite (bool_decide_false (sender c = adm)) by done.
    by rewrite (bool_decide_false (Some adm = _)) by congruence.
Qed.

Lemma add_verifier_decision_witness :
  add_verifier (H := AVM) verifierW (at_ admin0 2600) st_pending
    = Err VM_BOX_SIZE st_pending ∧
  add_verifier (H := KVStore) verifierV (at_ admin0 2600) st_three
    = Err ERR_VERIFIER_EXISTS st_three.
Proof.
  split.
  - rewrite (add_verifier_decision (H := AVM) verifierW (at_ admin0 2600)
               st_pending reachable_pending eq_refl).
    assert (verifiers st_pending = [verifierV]) as -> by by_eval.
    reflexivity.
  - rewrite (add_verifier_decision (H := KVStore) verifierV (at_ admin0 2600)
               st_three reachable_three eq_refl).
    assert (verifiers st_three = [verifierV; verifierW; verifierX]) as ->
      by by_eval.
    reflexivity.
Defined.

(** X14.  The decision of [remove_verifier] in a reachable state: a
    caller other than the admin, then an address that is not in the set
    (which includes every address that is not 32 bytes long); otherwise
    the address is taken out.  When it was the only one the box is
    deleted; when others remain, the shorter list is written, which a
    store whose boxes keep their size refuses. *)
Theorem remove_verifier_decision `{Host} v c s :
  reachable s →
  remove_verifier v c s =
    if bool_decide (admin s = Some (sender c)) then
      if bool_decide (v ∈ verifiers s) then
        let rest := filter (λ e, e ≠ v) (verifiers s) in
        if bool_decide (rest = []) then
          Ok () (set_boxes (delete verifiers_key) s) [VerifierRemoved v]
        else if box_put_resizes then
          Ok () (set_boxes <[verifiers_key := Raw (concat rest)]> s)
             [VerifierRemoved v]
        else Err VM_BOX_SIZE s
      else Err ERR_VERIFIER_NOT_FOUND s
    else Err ERR_NOT_ADMIN s.
Proof.
  intros (Hv & _ & adm & Hadm & _)%reachable_invariant.
  rewrite remove_verifier_eq, Hadm. unfold verifiers_inv, verifiers in *.
  destruct (decide (sender c = adm)) as [<-|Hne].
  - rewrite !bool_decide_refl. cbn [negb].
    destruct (boxes s !! verifiers_key) as [[bs| |]|]; try done.
    destruct Hv as (Hn & Hm & Hd). cbv zeta.
    assert (Forall (λ e : bytes, length e = 32)
              (filter (λ e, e ≠ v) (entries bs))) as H32
      by apply Forall_filter_keep, entries_length32.
    destruct (decide (v ∈ entries bs)) as [Hin|Hin].
    + rewrite (bool_decide_true (v ∈ _)) by done.
      destruct (list_elem_of_split _ _ Hin) as (L1 & L2 & HL).
      assert (length (concat (filter (λ e, e ≠ v) (entries bs))) < length bs)
        as Hlt.
      { rewrite <- (concat_entries bs) at 2 by done.
        rewrite !length_concat32 by (done || apply entries_length32).
        rewrite HL. rewrite HL in Hd.
        rewrite filter_ne_NoDup by done. rewrite !length_app. cbn. lia. }
      rewrite (bool_decide_true (_ < _)) by done. cbn [negb].
      destruct (decide (filter (λ e, e ≠ v) (entries bs) = [])) as [Hz|Hz].
      * rewrite Hz. by rewrite !bool_decide_refl.
      * rewrite (bool_decide_false (filter _ _ = [])) by done.
        rewrite (bool_decide_false (length (concat _) = 0)).
        -- rewrite (bool_decide_false (length bs = _)) by lia.
           by rewrite orb_false_r.
        -- intros Hnil. by apply concat32_nil in Hnil.
    + rewrite (bool_decide_false (v ∈ _)) by done.
      rewrite filter_ne_absent, concat_entries by done.
      by rewrite bool_decide_false by lia.
  - rewrite (bool_decide_false (sender c = adm)) by done.
    by rewrite (bool_decide_false (Some adm = _)) by congruence.
Qed.

Lemma remove_verifier_decision_witness :
  remove_verifier (H := AVM) verifierV (at_ admin0 3500) st_pending
    = Ok () st_retired [VerifierRemoved verifierV] ∧
  remove_verifier (H := KVStore) [x0f] (at_ admin0 3500) st_three
    = Err ERR_VERIFIER_NOT_FOUND st_three.
Proof.
  split.
  - rewrite (remove_verifier_decision (H := AVM) verifierV (at_ admin0 3500)
               st_pending reachable_pending).
    assert (verifiers st_pending = [verifierV]) as -> by by_eval.
    reflexivity.
  - rewrite (remove_verifier_decision (H := KVStore) [x0f] (at_ admin0 3500)
               st_three reachable_three).
    assert (verifiers st_three = [verifierV; verifierW; verifierX]) as ->
      by by_eval.
    reflexivity.
Defined.

(** ** Failures *)

Section Failures.
Context `{Host}.

Lemma exec_failure call c s e s' :
  invariant s → boxes_typed s → wf_call call → exec call c s = Err e s' →
  contract_error e = true ∨
  (e = VM_OVERFLOW ∧
   ∃ d, call = Enroll_farmer d ∧
     (UInt64_max < latest_timestamp c + d * SECONDS_PER_DAY)%N) ∨
  (e = VM_BOX_SIZE ∧ box_put_resizes = false ∧ verifiers s ≠ [] ∧
   ∃ v, call = Add_verifier v ∨ call = Remove_verifier v).
Proof.
  intros (Hv & _ & adm & Hadm & _) Hty Hwf Hr.
  unfold verifiers_inv, verifiers in *.
  destruct call as [d|ph|f approved|v|v]; cbn [exec wf_call] in *.
  - rewrite enroll_farmer_eq in Hr. split_run Hr; auto.
    + right; left. split; [done|]. exists d. split; [done|].
      unfold SECONDS_PER_DAY, UInt64_max in *. lia.
    + right; left. split; [done|]. eauto.
  - rewrite submit_claim_eq in Hr.
    destruct (boxes s !! enrollment_key (sender c)) as [b|] eqn:Hb.
    + destruct (boxes_typed_enrollment _ _ _ Hty Hb) as [_ [en ->]].
      split_run Hr; auto.
    + split_run Hr; auto.
  - rewrite verify_claim_eq in Hr.
    destruct (boxes s !! verifiers_key) as [[bs| |]|]; try done;
      split_run Hr; auto.
  - rewrite add_verifier_eq, Hadm in Hr.
    destruct (boxes s !! verifiers_key) as [[bs| |]|]; try done.
    + destruct Hv as (Hn & Hm & _). split_run Hr; auto.
      right; right.
      match goal with
      | Hput : _ || _ = false |- _ => apply orb_false_iff in Hput as [Hput _]
      end.
      split_and!; [done..| |eauto].
      intros Hnil. apply Hn. rewrite <- (concat_entries bs) by done.
      by rewrite Hnil.
    + rewrite Hwf, bool_decide_refl, orb_true_r in Hr. split_run Hr; auto.
  - rewrite remove_verifier_eq, Hadm in Hr.
    destruct (boxes s !! verifiers_key) as [[bs| |]|]; try done.
    + destruct Hv as (Hn & Hm & _). split_run Hr; auto.
      right; right.
      match goal with
      | Hput : _ || _ = false |- _ => apply orb_false_iff in Hput as [Hput _]
      end.
      split_and!; [done..| |eauto].
      intros Hnil. apply Hn. rewrite <- (concat_entries bs) by done.
      by rewrite Hnil.
    + split_run Hr; auto.
Qed.
End Failures.

(** X15.  In a reachable state a call with well-typed arguments fails
    only with one of the contract's own error codes, with two
    exceptions: [enroll_farmer] fails with an arithmetic overflow when
    [now + deadline_days * 86400] exceeds 64 bits, and on a store whose
    boxes keep their size [add_verifier] and [remove_verifier] fail on
    the write of a list of another length when the set is not empty.
    Reading an absent box, extracting out of range, decoding a box of the
    wrong kind and reading an unset admin never happen. *)
Theorem failures_are_classified `{Host} call c s e s' :
  reachable s → wf_call call → exec call c s = Err e s' →
  contract_error e = true ∨
  (e = VM_OVERFLOW ∧
   ∃ d, call = Enroll_farmer d ∧
     (UInt64_max < latest_timestamp c + d * 86400)%N) ∨
  (e = VM_BOX_SIZE ∧ box_put_resizes = false ∧ verifiers s ≠ [] ∧
   ∃ v, call = Add_verifier v ∨ call = Remove_verifier v).
Proof.
  intros Hs. apply exec_failure.
  - by apply reachable_invariant.
  - by apply reachable_boxes_typed.
Qed.

Lemma failures_are_classified_witness :
  contract_error ERR_DUPLICATE_CLAIM = true ∨
  (ERR_DUPLICATE_CLAIM = VM_OVERFLOW ∧
   ∃ d, Submit_claim "hash2" = Enroll_farmer d ∧
     (UInt64_max < latest_timestamp (at_ farmerA 2600) + d * 86400)%N) ∨
  (ERR_DUPLICATE_CLAIM = VM_BOX_SIZE ∧
   box_put_resizes (Host := AVM) = false ∧ verifiers st_pending ≠ [] ∧
   ∃ v, Submit_claim "hash2" = Add_verifier v ∨
        Submit_claim "hash2" = Remove_verifier v).
Proof.
  apply (failures_are_classified (H := AVM) (Submit_claim "hash2")
           (at_ farmerA 2600) st_pending ERR_DUPLICATE_CLAIM st_pending).
  - apply reachable_pending.
  - vm_compute. reflexivity.
  - by_eval.
Defined.

(** ** The roster on a store whose boxes keep their size *)

Lemma AVM_exec_roster call c s s' l :
  wf_call call → verifiers_inv s → exec (H := AVM) call c s = Ok () s' l →
  length (verifiers s) ≤ 1 → length (verifiers s') ≤ 1.
Proof.
  intros Hwf Hinv Hr Hone.
  destruct (exec_verifiers _ _ _ _ _ Hwf Hinv Hr) as [-> _].
  destruct call as [d|ph|f approved|v|v]; cbn [step_verifiers exec wf_call] in *;
    try done.
  - rewrite add_verifier_eq in Hr. unfold verifiers, verifiers_inv in *.
    change (@box_put_resizes AVM) with false in Hr. cbn [orb] in Hr.
    destruct (boxes s !! verifiers_key) as [[bs| |]|]; try done.
    split_run Hr. rewrite length_app in *. lia.
  - etransitivity; [apply length_filter|done].
Qed.

(** X16.  On a store whose [box_put] refuses a change of length, as the
    AVM's does, the verifier set of a reachable state never has more than
    one member: the first [add_verifier] creates a 32-byte box, and every
    further one, for another address, fails on the write of the longer
    list and leaves the set as it is. *)
Theorem AVM_roster_at_most_one s :
  reachable (H := AVM) s →
  length (verifiers s) ≤ 1 ∧
  ∀ v w c, verifiers s = [v] → length w = 32 → w ≠ v →
    admin s = Some (sender c) →
    add_verifier (H := AVM) w c s = Err VM_BOX_SIZE s.
Proof.
  intros Hs. split.
  - destruct Hs as (c0 & t & _ & Ht & Hr). rewrite deploy_eq in Hr. cbn in Hr.
    assert (verifiers_inv {| admin := Some (sender c0); boxes := ∅ |} ∧
            length (verifiers {| admin := Some (sender c0); boxes := ∅ |}) ≤ 1)
      as Hs0.
    { unfold verifiers_inv, verifiers. cbn. rewrite lookup_empty. cbn. lia. }
    revert Hr Hs0. generalize {| admin := Some (sender c0); boxes := ∅ |}.
    induction Ht as [|[c call] t [_ Hcall] _ IH]; intros s0 Hr [Hinv Hone];
      cbn in Hr.
    + by simplify_eq.
    + destruct (exec call c s0) as [[] s1 l1|] eqn:He; [|done].
      eapply IH; [done|]. split.
      * by eapply exec_verifiers_inv.
      * by eapply AVM_exec_roster.
  - intros v w c Hroster Hw Hne Hadm.
    apply reachable_invariant in Hs as (Hinv & _).
    rewrite add_verifier_eq, Hadm, bool_decide_refl. cbn [negb].
    unfold verifiers, verifiers_inv in *.
    destruct (boxes s !! verifiers_key) as [[bs| |]|]; try done.
    rewrite Hroster.
    rewrite bool_decide_false by (by intros ->%list_elem_of_singleton).
    rewrite bool_decide_false; [done|]. rewrite length_app. lia.
Qed.

Lemma AVM_roster_at_most_one_witness :
  length (verifiers st_pending) ≤ 1 ∧
  add_verifier (H := AVM) verifierW (at_ admin0 2600) st_pending
    = Err VM_BOX_SIZE st_pending.
Proof.
  destruct (AVM_roster_at_most_one st_pending reachable_pending) as [Hone Hfull].
  split; [exact Hone|].
  apply (Hfull verifierV verifierW (at_ admin0 2600)).
  - by_eval.
  - reflexivity.
  - vm_compute. intros Heq. discriminate Heq.
  - reflexivity.
Defined.

(** ** What is stored *)

(** X17.  The records of a reachable state carry what was checked when
    they were written.  An enrollment's deadline lies at least one day
    after its enrollment time and fits 64 bits.  A claim belongs to an
    enrolled identity, has a non-empty proof hash and was submitted
    strictly before that identity's deadline; while it is PENDING its
    verifier address is the zero address and its verification time 0,
    and once decided its verifier address is a 32-byte address. *)
Theorem stored_records_consistent `{Host} s :
  reachable s →
  (∀ a e, enrollment_of s a = Some e →
     (enrollment_timestamp e + 86400 ≤ claim_deadline e)%N ∧
     (claim_deadline e ≤ UInt64_max)%N) ∧
  (∀ a cl, claim_of s a = Some cl →
     ∃ en, enrollment_of s a = Some en ∧
       proof_hash cl ≠ "" ∧
       (submission_timestamp cl < claim_deadline en)%N ∧
       (status cl = ClaimStatus.PENDING →
          verifier_address cl = zero_address ∧ verification_timestamp cl = 0%N) ∧
       (decided cl → length (verifier_address cl) = 32)).
Proof. intros Hs. by apply reachable_records_inv. Qed.

Lemma stored_records_consistent_witness :
  (∃ en, enrollment_of st_pending farmerA = Some en ∧
     proof_hash (claimA ClaimStatus.PENDING zero_address 0) ≠ "" ∧
     (2000 < claim_deadline en)%N) ∧
  (1000 + 86400 ≤ 2593000)%N.
Proof.
  destruct (stored_records_consistent (H := AVM) st_pending reachable_pending)
    as [Henr Hcl].
  split.
  - destruct (Hcl farmerA (claimA ClaimStatus.PENDING zero_address 0))
      as (en & Hen & Hph & Hsub & _); [by_eval|].
    exists en. split_and!; [exact Hen|exact Hph|exact Hsub].
  - apply (Henr farmerA enrollmentA). by_eval.
Defined.

(** X18.  The footprint of the contract.  In a reachable state every box
    is an enrollment box, a claim box or the verifier box: its key is
    ["enrollment_"] or ["claim_"] followed by a 32-byte address, or
    ["verifiers"], and it holds an [Enrollment], a [Claim] or the raw
    list accordingly.  The contract creates no other box. *)
Theorem reachable_footprint `{Host} s k b :
  reachable s → boxes s !! k = Some b →
  (∃ a e, k = bytes_of "enrollment_" ++ a ∧ length a = 32 ∧
          b = EnrollmentBytes e) ∨
  (∃ a cl, k = bytes_of "claim_" ++ a ∧ length a = 32 ∧ b = ClaimBytes cl) ∨
  (k = bytes_of "verifiers" ∧ ∃ bs, b = Raw bs).
Proof. intros Hs%reachable_boxes_typed. apply Hs. Qed.

Lemma reachable_footprint_witness :
  (∃ a e, claim_key farmerA = bytes_of "enrollment_" ++ a ∧ length a = 32 ∧
          ClaimBytes (claimA ClaimStatus.PENDING zero_address 0)
            = EnrollmentBytes e) ∨
  (∃ a cl, claim_key farmerA = bytes_of "claim_" ++ a ∧ length a = 32 ∧
           ClaimBytes (claimA ClaimStatus.PENDING zero_address 0)
             = ClaimBytes cl) ∨
  (claim_key farmerA = bytes_of "verifiers" ∧
   ∃ bs, ClaimBytes (claimA ClaimStatus.PENDING zero_address 0) = Raw bs).
Proof.
  apply (reachable_footprint (H := AVM) st_pending).
  - apply reachable_pending.
  - by_eval.
Defined.

(** ** The two scans of the packed list, on arbitrary bytes *)

Lemma chunks32_lookup n (bs : bytes) i :
  i < n → chunks32 n bs !! i = Some (take 32 (drop (i * 32) bs)).
Proof.
  revert bs i. induction n as [|n IH]; intros bs i Hi; [lia|].
  destruct i as [|i]; cbn [chunks32]; [done|].
  cbn [lookup list_lookup]. rewrite IH by lia. by rewrite drop_drop.
Qed.

Lemma length_chunks32 n (bs : bytes) : length (chunks32 n bs) = n.
Proof. revert bs. induction n as [|n IH]; intros bs; cbn; by rewrite ?IH. Qed.

Lemma elem_of_entries (ab vb : bytes) :
  ab ∈ entries vb ↔
  ∃ i, i < length vb / 32 ∧ take 32 (drop (i * 32) vb) = ab.
Proof.
  unfold entries. rewrite list_elem_of_lookup. split.
  - intros [i Hi]. exists i.
    assert (i < length vb / 32) as Hlt.
    { apply lookup_lt_Some in Hi. by rewrite length_chunks32 in Hi. }
    rewrite chunks32_lookup in Hi by done. by simplify_eq.
  - intros (i & Hlt & <-). exists i. by apply chunks32_lookup.
Qed.

Lemma entries_take (vb : bytes) :
  entries (take (length vb / 32 * 32) vb) = entries vb.
Proof.
  rewrite <- chunks32_take.
  - apply entries_concat, entries_length32.
  - rewrite Nat.mul_comm. apply Nat.Div0.mul_div_le.
Qed.

Lemma length_entries_le (vb : bytes) : length (entries vb) * 32 ≤ length vb.
Proof.
  unfold entries. rewrite length_chunks32, Nat.mul_comm.
  apply Nat.Div0.mul_div_le.
Qed.

Lemma length_filter_ne_lt (v : bytes) (L : list bytes) :
  v ∈ L → length (filter (λ e, e ≠ v) L) < length L.
Proof.
  intros (L1 & L2 & ->)%list_elem_of_split.
  rewrite filter_app, filter_cons_False by (by intros []).
  rewrite !length_app. cbn [length].
  pose proof (length_filter (λ e, e ≠ v) L1).
  pose proof (length_filter (λ e, e ≠ v) L2). lia.
Qed.

(** X19.  [_verifier_in_list], on any byte string and any address: the
    scan never fails and touches nothing; it finds the address exactly
    when it equals one of the [len / 32] aligned 32-byte chunks; the bytes
    after the last full chunk are ignored; and an address that is not 32
    bytes long is never found.  Nor is an [Account], whatever its bytes:
    the scan compares it with every chunk and answers no. *)
Theorem verifier_in_list_scan vb ab c s :
  ∃ found, _verifier_in_list vb (OfBytes ab) c s = Ok found s [] ∧
    (found = true ↔
       ∃ i, i < length vb / 32 ∧ take 32 (drop (i * 32) vb) = ab) ∧
    _verifier_in_list (take (length vb / 32 * 32) vb) (OfBytes ab) c s
      = Ok found s [] ∧
    (length ab ≠ 32 → found = false) ∧
    _verifier_in_list vb (OfAccount ab) c s = Ok false s [].
Proof.
  exists (bool_decide (ab ∈ entries vb)).
  rewrite !_verifier_in_list_eq, entries_take, _verifier_in_list_Account.
  split_and!; [done| |done| |done].
  - by rewrite bool_decide_eq_true, elem_of_entries.
  - intros Hlen. apply bool_decide_eq_false. intros Hin.
    pose proof (entries_length32 vb) as H32.
    rewrite Forall_forall in H32. by apply H32 in Hin.
Qed.

Lemma verifier_in_list_scan_witness :
  ∃ found,
    _verifier_in_list (verifierV ++ verifierW ++ [x11; x11]) (OfBytes verifierW)
      (at_ admin0 0) genesis = Ok found genesis [] ∧
    found = true ∧
    _verifier_in_list (verifierV ++ verifierW) (OfBytes verifierW)
      (at_ admin0 0) genesis = Ok found genesis [].
Proof.
  destruct (verifier_in_list_scan (verifierV ++ verifierW ++ [x11; x11])
              verifierW (at_ admin0 0) genesis)
    as (found & Hrun & Hiff & Htail & _ & _).
  exists found. split_and!; [exact Hrun| |exact Htail].
  apply Hiff. exists 1. split; [vm_compute; lia|reflexivity].
Defined.

(** X20.  [_remove_from_list], on any byte string and any address: the
    scan never fails and touches nothing; its result is the aligned
    32-byte chunks that differ from the address, in their order, so that
    every occurrence is removed and a trailing partial chunk is dropped.
    The result is not longer than the input, and is shorter exactly when
    the address occurred or the input had a partial chunk.  In the result
    the address is no longer found, any other address is found as before,
    and removing the address again changes nothing. *)
Theorem remove_from_list_scan vb ab c s :
  ∃ r, _remove_from_list vb ab c s = Ok r s [] ∧
    entries r = filter (λ e, e ≠ ab) (entries vb) ∧
    concat (entries r) = r ∧
    length r ≤ length vb ∧
    (length r < length vb ↔ ab ∈ entries vb ∨ length vb mod 32 ≠ 0) ∧
    _verifier_in_list r (OfBytes ab) c s = Ok false s [] ∧
    (∀ x, x ≠ ab →
       _verifier_in_list r (OfBytes x) c s
         = _verifier_in_list vb (OfBytes x) c s) ∧
    _remove_from_list r ab c s = Ok r s [].
Proof.
  set (F := filter (λ e, e ≠ ab) (entries vb)).
  assert (Forall (λ e : bytes, length e = 32) F) as H32
    by apply Forall_filter_keep, entries_length32.
  assert (entries (concat F) = F) as HF by by apply entries_concat.
  exists (concat F). rewrite !_remove_from_list_eq. fold F.
  rewrite !HF. setoid_rewrite _verifier_in_list_eq. rewrite HF.
  pose proof (length_entries_le vb) as Hle.
  pose proof (length_filter (λ e, e ≠ ab) (entries vb)) as Hfl. fold F in Hfl.
  pose proof (length_concat32 F H32) as HlF.
  split_and!; try done.
  - lia.
  - split.
    + intros Hlt. destruct (decide (ab ∈ entries vb)) as [|Hnot]; [by left|].
      right. intros Hm. unfold F in Hlt.
      rewrite filter_ne_absent, concat_entries in Hlt by done. lia.
    + intros [Hin|Hm].
      * apply length_filter_ne_lt in Hin. fold F in Hin. lia.
      * assert (length (entries vb) * 32 ≠ length vb); [|lia].
        intros Heq. apply Hm. rewrite <- Heq. apply Nat.Div0.mod_mul.
  - rewrite bool_decide_false; [done|].
    unfold F. rewrite list_elem_of_filter. by intros [? _].
  - intros x Hx. f_equal. apply bool_decide_ext.
    unfold F. rewrite list_elem_of_filter. tauto.
  - do 2 f_equal. apply filter_all. intros x.
    unfold F. rewrite list_elem_of_filter. tauto.
Qed.

Lemma remove_from_list_scan_witness :
  ∃ r,
    _remove_from_list (verifierV ++ verifierW ++ verifierV ++ [x11]) verifierV
      (at_ admin0 0) genesis = Ok r genesis [] ∧
    entries r = [verifierW] ∧
    _verifier_in_list r (OfBytes verifierV) (at_ admin0 0) genesis
      = Ok false genesis [].
Proof.
  destruct (remove_from_list_scan (verifierV ++ verifierW ++ verifierV ++ [x11])
              verifierV (at_ admin0 0) genesis)
    as (r & Hrun & Hentries & _ & _ & _ & Hgone & _).
  exists r. split_and!; [exact Hrun| |exact Hgone].
  rewrite Hentries. vm_compute. reflexivity.
Defined.

(** ** One call, one box *)

(** X21.  A successful call with well-typed arguments changes exactly one
    box, and which one is fixed by the call: the caller's own enrollment
    box for [enroll_farmer], the caller's own claim box for
    [submit_claim], the claim box of the named identity for
    [verify_claim], the verifier box for [add_verifier] and
    [remove_verifier].  Every other box and the admin are left as they
    were, and the written box does change: no call succeeds without
    effect. *)
Theorem call_writes_one_box `{Host} call c s s' l :
  wf_call call → exec call c s = Ok () s' l →
  admin s' = admin s ∧
  (∀ k, k ≠ written_key call c → boxes s' !! k = boxes s !! k) ∧
  boxes s' !! written_key call c ≠ boxes s !! written_key call c.
Proof.
  intros Hwf Hr. split; [by eapply exec_admin|].
  invert_exec Hr; cbn [written_key wf_call boxes set_boxes] in *.
  - split; [intros k Hk; by rewrite lookup_insert_ne|].
    by rewrite lookup_insert_eq, Hfresh.
  - split; [intros k Hk; by rewrite lookup_insert_ne|].
    by rewrite lookup_insert_eq, Hfresh.
  - split; [intros k Hk; by rewrite lookup_insert_ne|].
    rewrite lookup_insert_eq.
    destruct Hbox as [[Hnone _] | Hsome]; [by rewrite Hnone|].
    rewrite Hsome. intros [= Heq]. apply (f_equal length) in Heq.
    rewrite length_app in Heq. lia.
  - cbv zeta in Hlt. case_bool_decide as Hz; cbn [boxes set_boxes].
    + split; [intros k Hk; by rewrite lookup_delete_ne|].
      by rewrite lookup_delete_eq, Hbox.
    + split; [intros k Hk; by rewrite lookup_insert_ne|].
      rewrite lookup_insert_eq, Hbox. intros [= Heq].
      rewrite Heq in Hlt. lia.
Qed.

Lemma call_writes_one_box_witness :
  admin st_submitted = admin st_enrolled ∧
  (∀ k, k ≠ written_key (Submit_claim "hash1") (at_ farmerA 2000) →
     boxes st_submitted !! k = boxes st_enrolled !! k) ∧
  boxes st_submitted !! written_key (Submit_claim "hash1") (at_ farmerA 2000)
    ≠ boxes st_enrolled !! written_key (Submit_claim "hash1") (at_ farmerA 2000).
Proof.
  apply (call_writes_one_box (H := AVM) (Submit_claim "hash1") (at_ farmerA 2000)
           st_enrolled st_submitted [ClaimSubmitted farmerA "hash1"]).
  - vm_compute. reflexivity.
  - apply (step_submit (H := AVM)).
Defined.

(** ** The deployment scripts *)

(** X22.  [get_algod_client] of [deploy.py] and
    [DeployConfig.get_network_config] agree.  Both accept the networks
    ["localnet"] and ["testnet"] and nothing else, raising [ValueError]
    on any other name, the message of the former being that of the latter
    followed by the hint.  On an accepted network, and when the
    environment overrides neither the TestNet address nor the TestNet
    token, the client is built from the URL and the token of the
    configuration, which has these two entries and no other. *)
Theorem algod_client_matches_config environ network :
  environ !! "ALGOD_TESTNET_ADDRESS" = None →
  environ !! "ALGOD_TESTNET_TOKEN" = None →
  match DeployConfig.get_network_config network,
        Deploy.get_algod_client environ network with
  | Return config, Return client =>
      (network = "localnet" ∨ network = "testnet") ∧
      config !! "algod_url" = Some (Deploy.algod_address client) ∧
      config !! "algod_token" = Some (Deploy.algod_token client) ∧
      dom config = {[ "algod_url"; "algod_token" ]}
  | Raise (ValueError m1), Raise (ValueError m2) =>
      network ≠ "localnet" ∧ network ≠ "testnet" ∧
      m1 = "Unknown network: " +:+ network ∧
      m2 = m1 +:+ ". Use 'localnet' or 'testnet'"
  | _, _ => False
  end.
Proof.
  intros Haddr Htok.
  unfold DeployConfig.get_network_config, Deploy.get_algod_client,
    os_getenv_default.
  rewrite Haddr, Htok.
  case_bool_decide as Hl; [|case_bool_decide as Ht].
  - split_and!; [by left|done|done|]. by rewrite dom_insert_L, dom_singleton_L.
  - split_and!; [by right|done|done|]. by rewrite dom_insert_L, dom_singleton_L.
  - done.
Qed.

Lemma algod_client_matches_config_witness :
  match DeployConfig.get_network_config "testnet",
        Deploy.get_algod_client {[ "DEPLOYER_MNEMONIC" := "abandon" ]} "testnet" with
  | Return config, Return client =>
      ("testnet" = "localnet" ∨ "testnet" = "testnet") ∧
      config !! "algod_url" = Some (Deploy.algod_address client) ∧
      config !! "algod_token" = Some (Deploy.algod_token client) ∧
      dom config = {[ "algod_url"; "algod_token" ]}
  | Raise (ValueError m1), Raise (ValueError m2) =>
      "testnet" ≠ "localnet" ∧ "testnet" ≠ "testnet" ∧
      m1 = "Unknown network: " +:+ "testnet" ∧
      m2 = m1 +:+ ". Use 'localnet' or 'testnet'"
  | _, _ => False
  end.
Proof.
  apply (algod_client_matches_config {[ "DEPLOYER_MNEMONIC" := "abandon" ]}
           "testnet").
  - vm_compute. reflexivity.
  - vm_compute. reflexivity.
Defined.

(** X23.  [get_deployer_account] on TestNet requires the mnemonic: when
    [DEPLOYER_MNEMONIC] is unset, and also when it is set to the empty
    string, the function raises [ValueError] without deriving any key.
    With a non-empty mnemonic it returns the key derived from it and the
    address of that key, or raises what the derivation raises.  On
    LocalNet the environment is not read, and the default account is
    asked of the client that [get_algod_client] builds for LocalNet. *)
Theorem deployer_account_needs_mnemonic
    (localnet_account : Deploy.AlgodClient → result (string * string))
    (to_private_key address_from_private_key : string → result string)
    environ :
  let get := Deploy.get_deployer_account localnet_account to_private_key
               address_from_private_key in
  (environ !! "DEPLOYER_MNEMONIC" = None ∨
   environ !! "DEPLOYER_MNEMONIC" = Some "" →
   ∃ msg, get environ "testnet" = Raise (ValueError msg)) ∧
  (∀ m, environ !! "DEPLOYER_MNEMONIC" = Some m → m ≠ "" →
     get environ "testnet" =
       match to_private_key m with
       | Return key =>
           match address_from_private_key key with
           | Return address => Return (address, key)
           | Raise e => Raise e
           end
       | Raise e => Raise e
       end) ∧
  (∀ client, Deploy.get_algod_client environ "localnet" = Return client →
     get environ "localnet" = get ∅ "localnet" ∧
     get environ "localnet" =
       match localnet_account client with
       | Return account => Return (account.1, account.2)
       | Raise e => Raise e
       end).
Proof.
  cbv zeta. unfold Deploy.get_deployer_account, Deploy.get_algod_client, os_getenv.
  split_and!.
  - intros [Hm|Hm]; rewrite Hm; cbn; eauto.
  - intros m Hm Hne. rewrite Hm. cbn. by destruct m.
  - intros client [= <-]. done.
Qed.

Lemma deployer_account_needs_mnemonic_witness :
  (∃ msg, Deploy.get_deployer_account (λ _, Raise (ValueError "no localnet"))
            (λ m, Return m) (λ k, Return k)
            {[ "DEPLOYER_MNEMONIC" := "" ]} "testnet"
          = Raise (ValueError msg)) ∧
  Deploy.get_deployer_account (λ _, Raise (ValueError "no localnet"))
    (λ m, Return m) (λ k, Return k)
    {[ "DEPLOYER_MNEMONIC" := "abandon" ]} "testnet"
  = Return ("abandon", "abandon").
Proof.
  split.
  - apply (deployer_account_needs_mnemonic
             (λ _, Raise (ValueError "no localnet")) (λ m, Return m)
             (λ k, Return k) {[ "DEPLOYER_MNEMONIC" := "" ]}).
    right. vm_compute. reflexivity.
  - rewrite (proj1 (proj2 (deployer_account_needs_mnemonic
               (λ _, Raise (ValueError "no localnet")) (λ m, Return m)
               (λ k, Return k) {[ "DEPLOYER_MNEMONIC" := "abandon" ]}))
               "abandon").
    + reflexivity.
    + vm_compute. reflexivity.
    + discriminate.
Defined.
